(** * HRMS employees API: a shallow embedding of [employees/api_views.py]

    The ten request handlers of [employees/api_views.py] are embedded as
    computations in a small state-and-exception monad over a relational
    store.  Every ORM call appends the table it touches to an access log,
    so that the order of policy checks and store accesses can be stated. *)

From Stdlib Require Import ZArith Lia.
From stdpp Require Import base option strings gmap list.

Local Open Scope Z_scope.

(** ** Python values carried by a request payload *)

(** The JSON values a payload can hold, restricted to [None], integers and
    strings; on these Python's [==] is structural equality. *)
Inductive Value : Type :=
  | VNone
  | VInt (n : Z)
  | VStr (s : string).

#[global] Instance Value_eq_dec : EqDecision Value.
Proof. solve_decision. Defined.

(** Python truthiness, as used by [if manager_id:]. *)
Definition truthy (v : Value) : bool :=
  match v with
  | VNone => false
  | VInt n => bool_decide (n ≠ 0)
  | VStr s => bool_decide (s ≠ "")
  end.

(** ** Rows of the five tables

    The rows carry exactly the attributes that [api_views.py] reads or
    writes; the column types are those of [models.py]. *)

Record User : Type := mkUser {
  username : string;
  password : string;
  first_name : string;
  last_name : string;
  email : string;
  role : string
}.

Record Employee : Type := mkEmployee {
  employee_id : string;
  user_id : Z;
  department_id : Value;
  designation_id : Value;
  date_of_joining : Value;
  basic_salary : Value
}.

Record Department : Type := mkDepartment {
  department_name : string;
  manager_id : option Z
}.

Record Designation : Type := mkDesignation {
  designation_title : string
}.

(** [employee] is the owning principal of the profile (the code writes
    [EmployeeProfile.objects.get_or_create(employee=user)]). *)
Record EmployeeProfile : Type := mkEmployeeProfile {
  employee : Z;
  verified : bool;
  details : gmap string Value
}.

#[global] Instance User_eq_dec : EqDecision User.
Proof. solve_decision. Defined.
#[global] Instance Employee_eq_dec : EqDecision Employee.
Proof. solve_decision. Defined.
#[global] Instance EmployeeProfile_eq_dec : EqDecision EmployeeProfile.
Proof. solve_decision. Defined.

(** A model instance is a row together with its primary key. *)
Abbreviation Instance A := (Z * A)%type.

Record Store : Type := mkStore {
  users : gmap Z User;
  employees : gmap Z Employee;
  departments : gmap Z Department;
  designations : gmap Z Designation;
  profiles : gmap Z EmployeeProfile
}.

Definition set_users (f : gmap Z User → gmap Z User) (s : Store) : Store :=
  mkStore (f (users s)) (employees s) (departments s) (designations s) (profiles s).
Definition set_employees (f : gmap Z Employee → gmap Z Employee) (s : Store) : Store :=
  mkStore (users s) (f (employees s)) (departments s) (designations s) (profiles s).
Definition set_departments (f : gmap Z Department → gmap Z Department) (s : Store) : Store :=
  mkStore (users s) (employees s) (f (departments s)) (designations s) (profiles s).
Definition set_profiles (f : gmap Z EmployeeProfile → gmap Z EmployeeProfile) (s : Store) : Store :=
  mkStore (users s) (employees s) (departments s) (designations s) (f (profiles s)).

(** ** Access log *)

Inductive Table : Type := TUser | TEmployee | TDepartment | TDesignation | TProfile.

Inductive Access : Type :=
  | Read (t : Table)
  | Write (t : Table).

#[global] Instance Table_eq_dec : EqDecision Table.
Proof. solve_decision. Defined.
#[global] Instance Access_eq_dec : EqDecision Access.
Proof. solve_decision. Defined.

Definition is_read (a : Access) : bool :=
  match a with Read _ => true | Write _ => false end.

(** ** The handler monad: store, access log, exceptions *)

Inductive Exn : Type :=
  | Http404
  | DoesNotExist
  | MultipleObjectsReturned
  | IntegrityError
  | ValueError.

#[global] Instance Exn_eq_dec : EqDecision Exn.
Proof. solve_decision. Defined.

Record World : Type := mkWorld {
  db : Store;
  log : list Access
}.

Definition M (A : Type) : Type := World → (Exn + A) * World.

Definition ret {A} (a : A) : M A := λ w, (inr a, w).

Definition bind {A B} (m : M A) (k : A → M B) : M B :=
  λ w, match m w with
       | (inr a, w') => k a w'
       | (inl e, w') => (inl e, w')
       end.

Definition raise {A} (e : Exn) : M A := λ w, (inl e, w).

(** [try: m except e: h] *)
Definition try_except {A} (m : M A) (e : Exn) (h : M A) : M A :=
  λ w, match m w with
       | (inl e', w') => if bool_decide (e' = e) then h w' else (inl e', w')
       | r => r
       end.

Notation "'let*' x ':=' m 'in' k" := (bind m (λ x, k))
  (at level 10, x binder, m at level 100, k at level 200, only parsing).

Definition touch (a : Access) : M unit :=
  λ w, (inr tt, mkWorld (db w) (log w ++ [a])).

Definition query {A} (t : Table) (f : Store → A) : M A :=
  let* _ := touch (Read t) in λ w, (inr (f (db w)), w).

Definition mutate (t : Table) (f : Store → Store) : M unit :=
  let* _ := touch (Write t) in λ w, (inr tt, mkWorld (f (db w)) (log w)).

(** ** QuerySets *)

(** [Model.objects.filter(P)]: the instances whose row satisfies [P]. *)
Definition select {A} (P : A → bool) (m : gmap Z A) : list (Instance A) :=
  filter (λ kv, P kv.2 = true) (map_to_list m).

(** [QuerySet.get()]: exactly one instance, or an exception. *)
Definition get_unique {A} (l : list (Instance A)) : M (Instance A) :=
  match l with
  | [] => raise DoesNotExist
  | [x] => ret x
  | _ => raise MultipleObjectsReturned
  end.

(** [get_object_or_404]: [DoesNotExist] becomes [Http404]. *)
Definition get_object_or_404 {A} (m : M A) : M A :=
  try_except m DoesNotExist (raise Http404).

(** The next value of an auto-increment primary key. *)
Definition next_pk {A} (m : gmap Z A) : Z :=
  foldr Z.max 0 (map_to_list m).*1 + 1.

Definition by_pk {A} (pk : Z) (m : gmap Z A) : list (Instance A) :=
  match m !! pk with Some r => [(pk, r)] | None => [] end.

(** ** Requests and responses *)

Inductive Method : Type := GET | POST | PUT | DELETE.

#[global] Instance Method_eq_dec : EqDecision Method.
Proof. solve_decision. Defined.

(** [request.data] is a dictionary; [request.GET] holds the query string. *)
Record Request : Type := mkRequest {
  user : Instance User;
  method : Method;
  data : gmap string Value;
  query_params : gmap string string
}.

Definition Errors : Type := list (string * string).

(** The fields [EmployeeCreateSerializer.validated_data] is read at.  The
    keys read with [[...]] are present whenever [is_valid()] holds; the keys
    read with [.get(key, '')] may be absent. *)
Record CreateData : Type := mkCreateData {
  cd_username : string;
  cd_password : string;
  cd_first_name : option string;
  cd_last_name : option string;
  cd_email : option string;
  cd_department : Value;
  cd_designation : Value;
  cd_date_of_joining : Value;
  cd_basic_salary : Value
}.

(** The body of a response holds the model instances handed to the
    serializers, not their rendering. *)
Inductive Body : Type :=
  | ErrorBody (msg : string)
  | MessageBody (msg : string)
  | ErrorsBody (errs : Errors)
  | EmptyBody
  | EmployeeBody (e : Instance Employee)
  | EmployeeListBody (l : list (Instance Employee))
  | DepartmentBody (d : Instance Department)
  | DepartmentListBody (l : list (Instance Department))
  | DesignationListBody (l : list (Instance Designation))
  | ProfileBody (p : Instance EmployeeProfile) (employee_record : option (Instance Employee))
  | ProfileListBody (l : list (Instance EmployeeProfile))
  | ViewBody (e : Instance Employee) (p : Instance EmployeeProfile).

Record Response : Type := mkResponse {
  body : Body;
  status : Z
}.

Definition HTTP_200_OK : Z := 200.
Definition HTTP_201_CREATED : Z := 201.
Definition HTTP_204_NO_CONTENT : Z := 204.
Definition HTTP_400_BAD_REQUEST : Z := 400.
Definition HTTP_403_FORBIDDEN : Z := 403.
Definition HTTP_404_NOT_FOUND : Z := 404.
Definition HTTP_405_METHOD_NOT_ALLOWED : Z := 405.
Definition HTTP_500_INTERNAL_SERVER_ERROR : Z := 500.

(** [Response({'error': 'Permission denied'}, status=HTTP_403_FORBIDDEN)] *)
Definition PermissionDenied : Response :=
  mkResponse (ErrorBody "Permission denied") HTTP_403_FORBIDDEN.

(** ** The parts of the repository outside [api_views.py]

    The views import their serializers from [serializers.py] and their
    models from [models.py] and [accounts/models.py].  What the views need
    from those modules is taken as a parameter. *)
Class Project : Type := {
  (** [EmployeeCreateSerializer(data=...).is_valid()], with its
      [validated_data] or its [errors]. *)
  EmployeeCreateSerializer : Store → gmap string Value → Errors + CreateData;
  (** [EmployeeProfileSerializer(profile, data=..., partial=True).is_valid()] *)
  EmployeeProfileSerializer_is_valid :
    Instance EmployeeProfile → gmap string Value → Errors + gmap string Value;
  (** [serializer.save()]: the attributes of the profile after the validated
      data has been applied to it. *)
  EmployeeProfileSerializer_update :
    gmap string Value → EmployeeProfile → EmployeeProfile;
  (** The value [models.py] gives [Employee.employee_id] on creation. *)
  Employee_default_employee_id : Store → string;
  (** Further constraints the database puts on a row of [User] and of
      [Employee]. *)
  User_constraints : Store → User → bool;
  Employee_constraints : Store → Employee → bool;
  (** Conversion of a payload value to a primary key: [None] when the
      conversion raises, [Some None] when no row can match. *)
  pk_to_python : Value → option (option Z)
}.

Section Handlers.
Context {P : Project}.

(** *** Managers of the five models *)

(** [Employee.objects.filter(user=user)] *)
Definition employees_of (uid : Z) (s : Store) : list (Instance Employee) :=
  select (λ e, bool_decide (user_id e = uid)) (employees s).

(** [Employee.objects.filter(employee_id=emp_id)] *)
Definition employees_with_id (emp_id : string) (s : Store) : list (Instance Employee) :=
  select (λ e, bool_decide (employee_id e = emp_id)) (employees s).

(** [Employee.objects.get(user=user)] *)
Definition Employee_get_by_user (uid : Z) : M (Instance Employee) :=
  let* l := query TEmployee (employees_of uid) in
  get_unique l.

(** [Employee.objects.get(employee_id=emp_id)] *)
Definition Employee_get_by_employee_id (emp_id : string) : M (Instance Employee) :=
  let* l := query TEmployee (employees_with_id emp_id) in
  get_unique l.

(** [Employee.objects.get(pk=pk)] *)
Definition Employee_get_by_pk (pk : Z) : M (Instance Employee) :=
  let* l := query TEmployee (λ s, by_pk pk (employees s)) in
  get_unique l.

(** [Employee.objects.get(id=manager_id)] and [Department.objects.get(id=...)]
    on a payload value. *)
Definition get_by_value {A} (t : Table) (tbl : Store → gmap Z A) (v : Value)
    : M (Instance A) :=
  match pk_to_python v with
  | None => raise ValueError
  | Some None => let* _ := touch (Read t) in raise DoesNotExist
  | Some (Some pk) => let* l := query t (λ s, by_pk pk (tbl s)) in get_unique l
  end.

(** [EmployeeProfile.objects.get(id=profile_id)] *)
Definition EmployeeProfile_get_by_id (profile_id : Z) : M (Instance EmployeeProfile) :=
  let* l := query TProfile (λ s, by_pk profile_id (profiles s)) in
  get_unique l.

(** Following a foreign key to [User], as [employee.user] does. *)
Definition related_user (uid : Z) : M (Instance User) :=
  let* l := query TUser (λ s, by_pk uid (users s)) in
  get_unique l.

(** Modelled from the spec: [models.py] is missing; a new profile is
    UNVERIFIED ("verified boolean (default false)") and its free-form
    fields are empty. *)
Definition new_profile (uid : Z) : EmployeeProfile :=
  mkEmployeeProfile uid false ∅.

Definition profiles_of (uid : Z) (s : Store) : list (Instance EmployeeProfile) :=
  select (λ p, bool_decide (employee p = uid)) (profiles s).

Definition insert_profile (uid : Z) : M (Instance EmployeeProfile) :=
  let* pk := (λ w, (inr (next_pk (profiles (db w))), w)) in
  let* _ := mutate TProfile (set_profiles (insert pk (new_profile uid))) in
  ret (pk, new_profile uid).

(** [EmployeeProfile.objects.get_or_create(employee=user)] *)
Definition EmployeeProfile_get_or_create (uid : Z) : M (Instance EmployeeProfile * bool) :=
  let* l := query TProfile (profiles_of uid) in
  match l with
  | [] => let* p := insert_profile uid in ret (p, true)
  | [p] => ret (p, false)
  | _ => raise MultipleObjectsReturned
  end.

(** Modelled from the spec: [models.py] is missing; the profile is one per
    principal ("owning principal reference (one-to-one)"), so creating a
    second profile for a principal violates the unique constraint. *)
Definition EmployeeProfile_create (uid : Z) : M (Instance EmployeeProfile) :=
  let* l := query TProfile (profiles_of uid) in
  match l with
  | [] => insert_profile uid
  | _ => raise IntegrityError
  end.

(** [User.objects.create_user(...)] *)
Definition User_create_user (u : User) : M (Instance User) :=
  let* ok := query TUser (λ s, User_constraints s u) in
  if ok : bool then
    let* pk := (λ w, (inr (next_pk (users (db w))), w)) in
    let* _ := mutate TUser (set_users (insert pk u)) in
    ret (pk, u)
  else raise IntegrityError.

(** [Employee.objects.create(...)].  Modelled from the spec: [models.py] is
    missing; "at most one Employee per principal" is the unique constraint
    of the one-to-one reference. *)
Definition Employee_create (uid : Z) (department designation doj salary : Value)
    : M (Instance Employee) :=
  let* eid := query TEmployee Employee_default_employee_id in
  let e := mkEmployee eid uid department designation doj salary in
  let* ok := query TEmployee (λ s,
    Employee_constraints s e &&
    bool_decide (employees_of uid s = [])) in
  if ok : bool then
    let* pk := (λ w, (inr (next_pk (employees (db w))), w)) in
    let* _ := mutate TEmployee (set_employees (insert pk e)) in
    ret (pk, e)
  else raise IntegrityError.

(** [employee.save()]: the attributes are written as they were assigned. *)
Definition Employee_save (e : Instance Employee) : M unit :=
  let* ok := (λ w, (inr (Employee_constraints (db w) e.2), w)) in
  if ok : bool then mutate TEmployee (set_employees (insert e.1 e.2))
  else raise IntegrityError.

(** [profile.save()] *)
Definition EmployeeProfile_save (p : Instance EmployeeProfile) : M unit :=
  mutate TProfile (set_profiles (insert p.1 p.2)).

(** [department.save()] *)
Definition Department_save (d : Instance Department) : M unit :=
  mutate TDepartment (set_departments (insert d.1 d.2)).

(** [user.delete()].  Modelled from the spec: [models.py] is missing;
    deleting the principal "cascades to the Employee record (but the Profile
    survives)". *)
Definition User_delete (u : Instance User) : M unit :=
  let* _ := mutate TEmployee
    (set_employees (filter (λ kv, user_id kv.2 ≠ u.1))) in
  mutate TUser (set_users (delete u.1)).

(** *** Decorators *)

(** [@api_view([...])]: other methods are answered with 405. *)
Definition api_view (methods : list Method) (view : Request → M Response)
    (request : Request) : M Response :=
  if bool_decide (method request ∈ methods) then view request
  else ret (mkResponse (ErrorBody "Method not allowed") HTTP_405_METHOD_NOT_ALLOWED).

(** [request.user.role not in ["ADMIN", "HR"]] *)
Definition not_admin_or_hr (request : Request) : bool :=
  bool_decide ((user request).2.(role) ∉ ["ADMIN"; "HR"]).

(** *** The views *)

Definition employee_list_api : Request → M Response :=
  api_view [GET] (λ request,
    if not_admin_or_hr request then ret PermissionDenied
    else
      let* employees := query TEmployee (λ s, map_to_list (employees s)) in
      ret (mkResponse (EmployeeListBody employees) HTTP_200_OK)).

Definition create_employee_api : Request → M Response :=
  api_view [POST] (λ request,
    if not_admin_or_hr request then ret PermissionDenied
    else
      let* serializer := (λ w, (inr (EmployeeCreateSerializer (db w) (data request)), w)) in
      match serializer with
      | inr validated_data =>
          (* Create user *)
          let* user := User_create_user (mkUser
            (cd_username validated_data)
            (cd_password validated_data)
            (default "" (cd_first_name validated_data))
            (default "" (cd_last_name validated_data))
            (default "" (cd_email validated_data))
            "EMPLOYEE") in
          (* Create employee *)
          let* employee := Employee_create user.1
            (cd_department validated_data)
            (cd_designation validated_data)
            (cd_date_of_joining validated_data)
            (cd_basic_salary validated_data) in
          (* Create employee profile *)
          let* _ := EmployeeProfile_create user.1 in
          ret (mkResponse (EmployeeBody employee) HTTP_201_CREATED)
      | inl errors => ret (mkResponse (ErrorsBody errors) HTTP_400_BAD_REQUEST)
      end).

(** The four conditional assignments of the PUT branch. *)
Definition assign_employee_fields (data : gmap string Value) (e : Employee) : Employee :=
  let e1 := match data !! "department" with
            | Some v => mkEmployee (employee_id e) (user_id e) v (designation_id e)
                          (date_of_joining e) (basic_salary e)
            | None => e
            end in
  let e2 := match data !! "designation" with
            | Some v => mkEmployee (employee_id e1) (user_id e1) (department_id e1) v
                          (date_of_joining e1) (basic_salary e1)
            | None => e1
            end in
  let e3 := match data !! "basic_salary" with
            | Some v => mkEmployee (employee_id e2) (user_id e2) (department_id e2)
                          (designation_id e2) (date_of_joining e2) v
            | None => e2
            end in
  match data !! "date_of_joining" with
  | Some v => mkEmployee (employee_id e3) (user_id e3) (department_id e3)
                (designation_id e3) v (basic_salary e3)
  | None => e3
  end.

Definition employee_detail_api (pk : Z) : Request → M Response :=
  api_view [GET; PUT; DELETE] (λ request,
    if not_admin_or_hr request then ret PermissionDenied
    else
      let* employee := get_object_or_404 (Employee_get_by_pk pk) in
      match method request with
      | GET => ret (mkResponse (EmployeeBody employee) HTTP_200_OK)
      | PUT =>
          (* Update employee details *)
          let employee := (employee.1, assign_employee_fields (data request) employee.2) in
          let* _ := Employee_save employee in
          ret (mkResponse (EmployeeBody employee) HTTP_200_OK)
      | DELETE =>
          let* u := related_user (user_id employee.2) in
          let* _ := User_delete u in
          ret (mkResponse EmptyBody HTTP_204_NO_CONTENT)
      | POST => ret (mkResponse (ErrorBody "Method not allowed") HTTP_405_METHOD_NOT_ALLOWED)
      end).

Definition departments_api : Request → M Response :=
  api_view [GET] (λ request,
    let* departments := query TDepartment (λ s, map_to_list (departments s)) in
    ret (mkResponse (DepartmentListBody departments) HTTP_200_OK)).

Definition update_department_manager_api : Request → M Response :=
  api_view [POST] (λ request,
    if not_admin_or_hr request then ret PermissionDenied
    else
      let department_id := default VNone (data request !! "department_id") in
      let manager_id := default VNone (data request !! "manager_id") in
      let* department := get_object_or_404 (get_by_value TDepartment departments department_id) in
      let* department :=
        if truthy manager_id then
          let* manager := get_object_or_404 (get_by_value TEmployee employees manager_id) in
          ret (department.1, mkDepartment (department_name department.2) (Some manager.1))
        else
          ret (department.1, mkDepartment (department_name department.2) None) in
      let* _ := Department_save department in
      ret (mkResponse (DepartmentBody department) HTTP_200_OK)).

Definition designations_api : Request → M Response :=
  api_view [GET] (λ request,
    let* designations := query TDesignation (λ s, map_to_list (designations s)) in
    ret (mkResponse (DesignationListBody designations) HTTP_200_OK)).

Definition employee_profile_api : Request → M Response :=
  api_view [GET; PUT] (λ request,
    let user := user request in
    let* '(profile, _) := EmployeeProfile_get_or_create user.1 in
    match method request with
    | GET =>
        (* Include employee record if exists *)
        try_except
          (let* emp_record := Employee_get_by_user user.1 in
           ret (mkResponse (ProfileBody profile (Some emp_record)) HTTP_200_OK))
          DoesNotExist
          (ret (mkResponse (ProfileBody profile None) HTTP_200_OK))
    | PUT =>
        match EmployeeProfileSerializer_is_valid profile (data request) with
        | inr validated_data =>
            let profile := (profile.1, EmployeeProfileSerializer_update validated_data profile.2) in
            let* _ := EmployeeProfile_save profile in
            (* Reset verification on update *)
            let profile := (profile.1, mkEmployeeProfile (employee profile.2) false (details profile.2)) in
            let* _ := EmployeeProfile_save profile in
            ret (mkResponse (ProfileBody profile None) HTTP_200_OK)
        | inl errors => ret (mkResponse (ErrorsBody errors) HTTP_400_BAD_REQUEST)
        end
    | _ => ret (mkResponse (ErrorBody "Method not allowed") HTTP_405_METHOD_NOT_ALLOWED)
    end).

(** [not emp_id] on the value of [request.GET.get('emp')] *)
Definition no_emp_id (emp_id : option string) : bool :=
  match emp_id with
  | None => true
  | Some s => bool_decide (s = "")
  end.

(** A view either goes on with a value or returns a response at once. *)
Definition or_return {A} (m : M (Response + A)) (k : A → M Response) : M Response :=
  let* r := m in
  match r with
  | inl response => ret response
  | inr a => k a
  end.

Definition view_profile_api : Request → M Response :=
  api_view [GET] (λ request,
    let emp_id := query_params request !! "emp" in
    let user := user request in
    let role := role user.2 in
    or_return
      (if bool_decide (role ∈ ["MANAGER"; "EMPLOYEE"]) then
         try_except
           (let* e := Employee_get_by_user user.1 in ret (inr (Some e)))
           DoesNotExist
           (ret (inl PermissionDenied))
       else ret (inr None))
      (λ logged_in_emp,
    or_return
      (if no_emp_id emp_id then
         match logged_in_emp with
         | None => ret (inl PermissionDenied)
         | Some e => ret (inr e)
         end
       else
         let* target := get_object_or_404
           (Employee_get_by_employee_id (default "" emp_id)) in
         if bool_decide (role ∈ ["ADMIN"; "HR"]) then ret (inr target)
         else if bool_decide (role = "MANAGER") then
           match logged_in_emp with
           | None => ret (inl PermissionDenied)
           | Some me =>
               if bool_decide (department_id target.2 ≠ department_id me.2)
               then ret (inl PermissionDenied)
               else ret (inr target)
           end
         else
           match logged_in_emp with
           | None => ret (inl PermissionDenied)
           | Some _ =>
               if bool_decide (user_id target.2 ≠ user.1)
               then ret (inl PermissionDenied)
               else ret (inr target)
           end)
      (λ target,
    let* target_user := related_user (user_id target.2) in
    let* '(profile, _) := EmployeeProfile_get_or_create target_user.1 in
    ret (mkResponse (ViewBody target profile) HTTP_200_OK)))).

(** [employee__role="EMPLOYEE"]: the join of a profile with its principal. *)
Definition owner_role_is (r : string) (s : Store) (p : EmployeeProfile) : bool :=
  match users s !! employee p with
  | Some u => bool_decide (role u = r)
  | None => false
  end.

Definition pending_profiles_api : Request → M Response :=
  api_view [GET] (λ request,
    if not_admin_or_hr request then ret PermissionDenied
    else
      let* pending := query TProfile (λ s,
        select (λ p, bool_decide (verified p = false) && owner_role_is "EMPLOYEE" s p)
               (profiles s)) in
      ret (mkResponse (ProfileListBody pending) HTTP_200_OK)).

Definition approve_profile_api (profile_id : Z) : Request → M Response :=
  api_view [POST] (λ request,
    if not_admin_or_hr request then ret PermissionDenied
    else
      let* profile := get_object_or_404 (EmployeeProfile_get_by_id profile_id) in
      let profile := (profile.1, mkEmployeeProfile (employee profile.2) true (details profile.2)) in
      let* _ := EmployeeProfile_save profile in
      ret (mkResponse (MessageBody "Profile approved successfully") HTTP_200_OK)).

(** The URL routes of the application, one per view. *)
Inductive View : Type :=
  | EmployeeList
  | CreateEmployee
  | EmployeeDetail (pk : Z)
  | Departments
  | UpdateDepartmentManager
  | Designations
  | EmployeeProfileSelf
  | ViewProfile
  | PendingProfiles
  | ApproveProfile (profile_id : Z).

Definition dispatch (v : View) : Request → M Response :=
  match v with
  | EmployeeList => employee_list_api
  | CreateEmployee => create_employee_api
  | EmployeeDetail pk => employee_detail_api pk
  | Departments => departments_api
  | UpdateDepartmentManager => update_department_manager_api
  | Designations => designations_api
  | EmployeeProfileSelf => employee_profile_api
  | ViewProfile => view_profile_api
  | PendingProfiles => pending_profiles_api
  | ApproveProfile profile_id => approve_profile_api profile_id
  end.

(** *** Serving a request

    An [Http404] that leaves the view becomes a 404 response, any other
    exception a 500; what was written before the exception stays written. *)
Definition serve (view : Request → M Response) (request : Request) (s : Store)
    : Response * Store * list Access :=
  match view request (mkWorld s []) with
  | (inr response, w) => (response, db w, log w)
  | (inl Http404, w) =>
      (mkResponse (ErrorBody "Not found") HTTP_404_NOT_FOUND, db w, log w)
  | (inl _, w) =>
      (mkResponse (ErrorBody "Server error") HTTP_500_INTERNAL_SERVER_ERROR, db w, log w)
  end.

(** *** The steps of onboarding, by name *)

(** The row [create_user] is called with. *)
Definition onboarded_user (vd : CreateData) : User :=
  mkUser (cd_username vd) (cd_password vd)
    (default "" (cd_first_name vd)) (default "" (cd_last_name vd))
    (default "" (cd_email vd)) "EMPLOYEE".

(** The row [Employee.objects.create] is called with, for principal [uid]. *)
Definition onboarded_employee (s : Store) (uid : Z) (vd : CreateData) : Employee :=
  mkEmployee (Employee_default_employee_id s) uid (cd_department vd)
    (cd_designation vd) (cd_date_of_joining vd) (cd_basic_salary vd).

(** The store after each of the three creations. *)
Definition with_user (s : Store) (vd : CreateData) : Store :=
  set_users (insert (next_pk (users s)) (onboarded_user vd)) s.

Definition with_employee (s : Store) (vd : CreateData) : Store :=
  let s1 := with_user s vd in
  set_employees
    (insert (next_pk (employees s1)) (onboarded_employee s1 (next_pk (users s)) vd)) s1.

Definition with_profile (s : Store) (vd : CreateData) : Store :=
  let s2 := with_employee s vd in
  set_profiles
    (insert (next_pk (profiles s2)) (new_profile (next_pk (users s)))) s2.

(** Whether the database accepts the new employee row. *)
Definition employee_accepted (s : Store) (vd : CreateData) : bool :=
  let s1 := with_user s vd in
  Employee_constraints s1 (onboarded_employee s1 (next_pk (users s)) vd) &&
  bool_decide (employees_of (next_pk (users s)) s1 = []).

Definition server_error : Response :=
  mkResponse (ErrorBody "Server error") HTTP_500_INTERNAL_SERVER_ERROR.

End Handlers.

(** *** The decorators of each view, by name *)

(** The methods listed in the view's [@api_view([...])]. *)
Definition allowed_methods (v : View) : list Method :=
  match v with
  | EmployeeList => [GET]
  | CreateEmployee => [POST]
  | EmployeeDetail _ => [GET; PUT; DELETE]
  | Departments => [GET]
  | UpdateDepartmentManager => [POST]
  | Designations => [GET]
  | EmployeeProfileSelf => [GET; PUT]
  | ViewProfile => [GET]
  | PendingProfiles => [GET]
  | ApproveProfile _ => [POST]
  end.

(** The views whose body starts with
    [if request.user.role not in ["ADMIN", "HR"]]. *)
Definition role_gated (v : View) : bool :=
  match v with
  | EmployeeList | CreateEmployee | EmployeeDetail _
  | UpdateDepartmentManager | PendingProfiles | ApproveProfile _ => true
  | Departments | Designations | EmployeeProfileSelf | ViewProfile => false
  end.

Definition not_found : Response :=
  mkResponse (ErrorBody "Not found") HTTP_404_NOT_FOUND.

(** ** A concrete project and store, for running the views *)

Module Demo.

(** A create serializer that asks for the six keys the view reads with
    [[...]] and resolves the department and the designation against the
    store, since the view hands them on as instances. *)
Definition create_serializer (s : Store) (d : gmap string Value) : Errors + CreateData :=
  match d !! "username", d !! "password", d !! "department", d !! "designation",
        d !! "date_of_joining", d !! "basic_salary" with
  | Some (VStr u), Some (VStr p), Some (VInt dep), Some (VInt des), Some doj, Some sal =>
      if bool_decide (is_Some (departments s !! dep)) &&
         bool_decide (is_Some (designations s !! des))
      then inr (mkCreateData u p None None None (VInt dep) (VInt des) doj sal)
      else inl [("detail", "Invalid pk - object does not exist.")]
  | _, _, _, _, _, _ => inl [("detail", "This field is required.")]
  end.

(** A profile serializer that lets the payload write every attribute but the
    owner, [verified] included. *)
Definition profile_update (d : gmap string Value) (p : EmployeeProfile) : EmployeeProfile :=
  mkEmployeeProfile (employee p)
    (match d !! "verified" with
     | Some (VInt 1) => true
     | Some _ => false
     | None => verified p
     end)
    (d ∪ details p).

(** User names are unique; an employee's department must exist. *)
Definition project : Project := {|
  EmployeeCreateSerializer := create_serializer;
  EmployeeProfileSerializer_is_valid := λ _ d, inr d;
  EmployeeProfileSerializer_update := profile_update;
  Employee_default_employee_id := λ _, "EMP-NEW";
  User_constraints := λ s u,
    bool_decide (select (λ u', bool_decide (username u' = username u)) (users s) = []);
  Employee_constraints := λ s e,
    match department_id e with
    | VNone => true
    | VInt d => bool_decide (is_Some (departments s !! d))
    | VStr _ => false
    end;
  pk_to_python := λ v,
    match v with
    | VNone => Some None
    | VInt n => Some (Some n)
    | VStr _ => None
    end
|}.

Definition admin : Instance User := (1, mkUser "root" "x" "" "" "" "ADMIN").
Definition hr : Instance User := (2, mkUser "hana" "x" "" "" "" "HR").
Definition manager : Instance User := (3, mkUser "mia" "x" "" "" "" "MANAGER").
Definition worker : Instance User := (4, mkUser "eli" "x" "" "" "" "EMPLOYEE").
Definition other : Instance User := (5, mkUser "omar" "x" "" "" "" "EMPLOYEE").
Definition lead : Instance User := (6, mkUser "lena" "x" "" "" "" "MANAGER").

(** The three employee records of the store. *)
Definition E1 : Instance Employee :=
  (1, mkEmployee "E1" 3 (VInt 1) (VInt 1) (VStr "2020-01-01") (VInt 9000)).
Definition E2 : Instance Employee :=
  (2, mkEmployee "E2" 4 (VInt 1) (VInt 2) (VStr "2021-02-01") (VInt 5000)).
Definition E3 : Instance Employee :=
  (3, mkEmployee "E3" 5 (VInt 2) (VInt 2) (VStr "2022-03-01") (VInt 5000)).

(** Departments 1 and 2; [mia] manages in department 1 with [eli];
    [omar] is in department 2; [lena] has no employee record. *)
Definition store : Store := {|
  users := list_to_map [admin; hr; manager; worker; other; lead];
  employees := list_to_map [E1; E2; E3];
  departments := list_to_map [(1, mkDepartment "Sales" (Some 1)); (2, mkDepartment "Ops" None)];
  designations := list_to_map [(1, mkDesignation "Lead"); (2, mkDesignation "Clerk")];
  profiles := list_to_map [
    (1, mkEmployeeProfile 3 false ∅);
    (2, mkEmployeeProfile 4 true ∅);
    (3, mkEmployeeProfile 5 false ∅)]
|}.

Definition get (u : Instance User) (emp : option string) : Request :=
  mkRequest u GET ∅ (match emp with Some e => {["emp" := e]} | None => ∅ end).

Definition send (u : Instance User) (m : Method) (d : list (string * Value)) : Request :=
  mkRequest u m (list_to_map d) ∅.

(** HR onboards [nina] into department [dept]; the payload asks for the
    role ADMIN. *)
Definition onboard (dept : Z) : Request :=
  send hr POST [
    ("username", VStr "nina"); ("password", VStr "pw"); ("role", VStr "ADMIN");
    ("department", VInt dept); ("designation", VInt 2);
    ("date_of_joining", VStr "2024-05-01"); ("basic_salary", VInt 4000)].

Definition nina : User := mkUser "nina" "pw" "" "" "" "EMPLOYEE".

(** What the serializer hands over for that payload. *)
Definition nina_data (dept : Z) : CreateData :=
  mkCreateData "nina" "pw" None None None (VInt dept) (VInt 2)
    (VStr "2024-05-01") (VInt 4000).

(** [eli]'s verified profile; the payload even asks for [verified]. *)
Definition self_edit : Request :=
  send worker PUT [("verified", VInt 1); ("phone", VStr "555-0100")].

(** HR raises [eli]'s salary and sends nothing else. *)
Definition raise_salary : Request := send hr PUT [("basic_salary", VInt 6000)].

End Demo.

(** ** More requests on the concrete store *)

Module Demo2.
Import Demo.

(** A principal whose role is none of the four. *)
Definition intern : Instance User := (8, mkUser "ivy" "x" "" "" "" "INTERN").

(** As [Demo.project], with a profile serializer that refuses a payload
    naming [verified]. *)
Definition strict_project : Project := {|
  EmployeeCreateSerializer := create_serializer;
  EmployeeProfileSerializer_is_valid := λ _ d,
    match d !! "verified" with
    | Some _ => inl [("verified", "This field is read-only.")]
    | None => inr d
    end;
  EmployeeProfileSerializer_update := profile_update;
  Employee_default_employee_id := λ _, "EMP-NEW";
  User_constraints := User_constraints (Project := project);
  Employee_constraints := Employee_constraints (Project := project);
  pk_to_python := pk_to_python (Project := project)
|}.


(** Department 2 gets the employee with primary key [k] as manager. *)
Definition assign_manager (k : Value) : Request :=
  send hr POST [("department_id", VInt 2); ("manager_id", k)].

(** Department 1 is sent a manager id of [0]. *)
Definition clear_manager : Request :=
  send admin POST [("department_id", VInt 1); ("manager_id", VInt 0)].

Definition edit_phone : Request := send worker PUT [("phone", VStr "555-0100")].

End Demo2.

(** * Properties *)

(** ** QuerySet lemmas *)

Section QuerySets.
Context {A : Type}.
Implicit Types (P : A → bool) (m : gmap Z A).

Lemma elem_of_select P m k a :
  (k, a) ∈ select P m ↔ m !! k = Some a ∧ P a = true.
Proof.
  unfold select. rewrite list_elem_of_filter, elem_of_map_to_list. simpl. tauto.
Qed.

Lemma NoDup_select P m : NoDup (select P m).
Proof. apply NoDup_filter, NoDup_map_to_list. Qed.

Lemma select_nil P m :
  select P m = [] ↔ ∀ k a, m !! k = Some a → P a = false.
Proof.
  split.
  - intros Hnil k a Hk. destruct (P a) eqn:HP; [|done].
    assert ((k, a) ∈ select P m) as Hin by (by apply elem_of_select).
    rewrite Hnil in Hin. by apply elem_of_nil in Hin.
  - intros Hall. destruct (select P m) as [|[k a] l] eqn:Hsel; [done|].
    assert ((k, a) ∈ select P m) as Hin by (rewrite Hsel; left).
    apply elem_of_select in Hin as [Hk HP]. rewrite (Hall k a Hk) in HP. done.
Qed.

Lemma max_key_bound (l : list Z) k : k ∈ l → k ≤ foldr Z.max 0 l.
Proof.
  induction l as [|x l IH]; intros Hin.
  - by apply elem_of_nil in Hin.
  - apply elem_of_cons in Hin as [->|Hin]; simpl; [lia|].
    specialize (IH Hin). lia.
Qed.

Lemma next_pk_fresh m : m !! next_pk m = None.
Proof.
  destruct (m !! next_pk m) as [x|] eqn:Hx; [|done].
  assert (next_pk m ∈ (map_to_list m).*1) as Hin.
  { apply list_elem_of_fmap. exists (next_pk m, x). split; [done|].
    by apply elem_of_map_to_list. }
  apply max_key_bound in Hin. unfold next_pk in Hin. lia.
Qed.

Lemma by_pk_Some m k a : m !! k = Some a → by_pk k m = [(k, a)].
Proof. unfold by_pk. by intros ->. Qed.

End QuerySets.

Ltac by_map_forall :=
  refine (bool_decide_unpack (map_Forall _ _) _); vm_compute; exact I.

(** Unfolding of the monad and of the ORM calls. *)
Ltac run :=
  unfold or_return, get_object_or_404, try_except, bind, ret, raise,
    Employee_get_by_user, Employee_get_by_employee_id, Employee_get_by_pk,
    EmployeeProfile_get_by_id, EmployeeProfile_get_or_create, related_user,
    insert_profile, EmployeeProfile_save, get_unique, query, mutate, bind, touch;
  cbn [db log fst snd].

Lemma profiles_of_owner uid s p : p ∈ profiles_of uid s → employee p.2 = uid.
Proof.
  destruct p as [k p]. unfold profiles_of. rewrite elem_of_select.
  intros [_ Hp]. by apply bool_decide_eq_true in Hp.
Qed.

(** ** Who may view a profile *)

Section ViewProfile.
Implicit Types (request : Request) (s : Store).

(** C1. A MANAGER or EMPLOYEE actor for whom no Employee record exists is
    answered with PermissionDenied by [view_profile_api], whatever the
    query string (the target) is; the store is left as it was, and only
    the lookup of the actor's own record has touched it. *)
Theorem view_profile_without_own_record_denied request s :
  method request = GET →
  role (user request).2 = "MANAGER" ∨ role (user request).2 = "EMPLOYEE" →
  (∀ k e, employees s !! k = Some e → user_id e ≠ (user request).1) →
  serve view_profile_api request s = (PermissionDenied, s, [Read TEmployee]).
Proof.
  intros Hm Hrole Hnone.
  assert (employees_of (user request).1 s = []) as Hsel.
  { apply select_nil. intros k e Hk. apply bool_decide_eq_false. eauto. }
  unfold serve, view_profile_api, api_view. rewrite Hm. simpl.
  unfold or_return, bind, try_except, Employee_get_by_user, query, bind, touch. simpl.
  destruct Hrole as [-> | ->]; simpl; rewrite Hsel; reflexivity.
Qed.

(** C2. A MANAGER with an own Employee record who asks for the profile of
    an existing employee is served when the target's department is the
    actor's own department, and is answered with PermissionDenied when the
    departments differ. *)
Theorem manager_view_scoped_to_department request s me target emp_id :
  method request = GET →
  role (user request).2 = "MANAGER" →
  employees_of (user request).1 s = [me] →
  query_params request !! "emp" = Some emp_id →
  emp_id ≠ "" →
  employees_with_id emp_id s = [target] →
  (department_id target.2 = department_id me.2 →
     (serve view_profile_api request s).1.1 ≠ PermissionDenied ∧
     (is_Some (users s !! user_id target.2) →
      (length (profiles_of (user_id target.2) s) ≤ 1)%nat →
      ∃ profile,
        (serve view_profile_api request s).1.1
          = mkResponse (ViewBody target profile) HTTP_200_OK ∧
        employee profile.2 = user_id target.2)) ∧
  (department_id target.2 ≠ department_id me.2 →
     serve view_profile_api request s
       = (PermissionDenied, s, [Read TEmployee; Read TEmployee])).
Proof.
  intros Hm Hrole Hme Hemp Hne Htarget.
  unfold serve, view_profile_api, api_view. rewrite Hm, Hrole, Hemp. simpl.
  run. rewrite Hme. simpl. rewrite (bool_decide_eq_false_2 _ Hne).
  run. rewrite Htarget. simpl. split.
  - intros Heq. rewrite bool_decide_eq_false_2 by (by intros ?).
    unfold by_pk. cbn [db log]. split.
    + destruct (users s !! user_id target.2); simpl; [|by intros ?].
      destruct (profiles_of _ s) as [|p [|]]; simpl; by intros ?.
    + intros [u Hu] Hlen. rewrite Hu. simpl.
      destruct (profiles_of _ s) as [|p [|q l]] eqn:Hp; simpl in *; [| |lia].
      * by eexists.
      * exists p. split; [done|].
        apply (profiles_of_owner _ s). rewrite Hp. left.
  - intros Hdiff. by rewrite bool_decide_eq_true_2.
Qed.

End ViewProfile.

(** ** The verification workflow *)

Section Verification.
Context {P : Project}.
Implicit Types (request : Request) (s : Store).

Lemma set_profiles_id s (f : gmap Z EmployeeProfile → gmap Z EmployeeProfile) :
  f (profiles s) = profiles s → set_profiles f s = s.
Proof. destruct s. unfold set_profiles. simpl. by intros ->. Qed.

(** C3. A successful self-edit (PUT on [employee_profile_api] with a payload
    the serializer accepts) leaves the profile unverified, whatever the
    profile's state was and whatever the serializer wrote into it: the
    stored profile and the profile in the response both have
    [verified = false]. *)
Theorem self_edit_resets_verification request s p validated_data :
  method request = PUT →
  profiles_of (user request).1 s = [p] →
  EmployeeProfileSerializer_is_valid p (data request) = inr validated_data →
  ∃ p',
    (serve employee_profile_api request s).1.1
      = mkResponse (ProfileBody (p.1, p') None) HTTP_200_OK ∧
    profiles (serve employee_profile_api request s).1.2 !! p.1 = Some p' ∧
    verified p' = false.
Proof.
  intros Hm Hp Hvalid.
  unfold serve, employee_profile_api, api_view. rewrite Hm. simpl.
  run. rewrite Hp. simpl. rewrite Hvalid. run.
  eexists. split; [reflexivity|]. split; [|reflexivity].
  simpl. apply lookup_insert_eq.
Qed.

(** C4. Approval by an ADMIN or HR actor is idempotent: it succeeds and
    leaves the profile verified; approving again succeeds with the same
    response and the same store, and approving a profile that is already
    verified changes nothing in the store. *)
Theorem approve_is_idempotent request s profile_id p :
  method request = POST →
  role (user request).2 = "ADMIN" ∨ role (user request).2 = "HR" →
  profiles s !! profile_id = Some p →
  let once := serve (approve_profile_api profile_id) request s in
  once.1.1 = mkResponse (MessageBody "Profile approved successfully") HTTP_200_OK ∧
  verified <$> profiles once.1.2 !! profile_id = Some true ∧
  serve (approve_profile_api profile_id) request once.1.2 = once ∧
  (verified p = true → once.1.2 = s).
Proof.
  intros Hm Hrole Hp.
  assert (not_admin_or_hr request = false) as Hgate.
  { unfold not_admin_or_hr. by destruct Hrole as [-> | ->]. }
  unfold serve, approve_profile_api, api_view. rewrite Hm, Hgate. simpl.
  run. rewrite (by_pk_Some _ _ _ Hp). simpl.
  repeat split.
  - by rewrite lookup_insert_eq.
  - rewrite (by_pk_Some _ profile_id (mkEmployeeProfile (employee p) true (details p)))
      by apply lookup_insert_eq.
    simpl. unfold set_profiles. simpl. by rewrite insert_insert_eq.
  - intros Hv. apply set_profiles_id, insert_id.
    rewrite Hp. destruct p. simpl in *. by subst.
Qed.

(** C5. The pending-profiles query, asked by an ADMIN or HR actor, answers
    with exactly the profiles that are unverified and whose owning
    principal has the role EMPLOYEE, each once; an unverified profile whose
    owner is a MANAGER, HR or ADMIN principal is not in the answer. *)
Theorem pending_profiles_exact request s :
  method request = GET →
  role (user request).2 = "ADMIN" ∨ role (user request).2 = "HR" →
  ∃ pending,
    serve pending_profiles_api request s
      = (mkResponse (ProfileListBody pending) HTTP_200_OK, s, [Read TProfile]) ∧
    NoDup pending ∧
    (∀ k p, (k, p) ∈ pending ↔
       profiles s !! k = Some p ∧ verified p = false ∧
       ∃ u, users s !! employee p = Some u ∧ role u = "EMPLOYEE") ∧
    (∀ k p u, (k, p) ∈ pending → users s !! employee p = Some u →
       role u ≠ "MANAGER" ∧ role u ≠ "HR" ∧ role u ≠ "ADMIN").
Proof.
  intros Hm Hrole.
  assert (not_admin_or_hr request = false) as Hgate.
  { unfold not_admin_or_hr. by destruct Hrole as [-> | ->]. }
  unfold serve, pending_profiles_api, api_view. rewrite Hm, Hgate. simpl.
  run. eexists. split; [reflexivity|].
  assert (∀ k p,
    (k, p) ∈ select (λ p, bool_decide (verified p = false) && owner_role_is "EMPLOYEE" s p)
               (profiles s) ↔
    profiles s !! k = Some p ∧ verified p = false ∧
    ∃ u, users s !! employee p = Some u ∧ role u = "EMPLOYEE") as Hiff.
  { intros k p. rewrite elem_of_select, andb_true_iff, bool_decide_eq_true.
    unfold owner_role_is. destruct (users s !! employee p) as [u|].
    - rewrite bool_decide_eq_true. split.
      + intros (Hk & Hv & Hr). eauto 6.
      + intros (Hk & Hv & u' & [= <-] & Hr). done.
    - split.
      + intros (_ & _ & ?). done.
      + intros (_ & _ & u' & ? & _). done. }
  split; [apply NoDup_select|]. split; [exact Hiff|].
  intros k p u Hin Hu. apply Hiff in Hin as (_ & _ & u' & Hu' & Hr).
  assert (u' = u) as -> by congruence. rewrite Hr. done.
Qed.

End Verification.

(** ** Updating an employee *)

Section Update.
Context {P : Project}.
Implicit Types (request : Request) (s : Store) (e : Employee).

Lemma not_admin_or_hr_false request :
  role (user request).2 = "ADMIN" ∨ role (user request).2 = "HR" →
  not_admin_or_hr request = false.
Proof. unfold not_admin_or_hr. by intros [-> | ->]. Qed.

(** What the four conditional assignments do to each attribute. *)
Lemma assign_employee_fields_spec (d : gmap string Value) e :
  let e' := assign_employee_fields d e in
  employee_id e' = employee_id e ∧
  user_id e' = user_id e ∧
  department_id e' = default (department_id e) (d !! "department") ∧
  designation_id e' = default (designation_id e) (d !! "designation") ∧
  basic_salary e' = default (basic_salary e) (d !! "basic_salary") ∧
  date_of_joining e' = default (date_of_joining e) (d !! "date_of_joining").
Proof.
  unfold assign_employee_fields.
  destruct (d !! "department"), (d !! "designation"),
    (d !! "basic_salary"), (d !! "date_of_joining"); simpl; tauto.
Qed.

(** C8. A PUT on [employee_detail_api] by an ADMIN or HR actor changes, in
    the employee it names, only the attributes whose key is in the payload:
    each of department, designation, basic salary and date of joining keeps
    its value when its key is absent, and takes the payload's value when the
    update succeeds; the employee's identifier and principal, every other
    employee and every other table are untouched. *)
Theorem employee_update_is_partial pk request s e :
  method request = PUT →
  role (user request).2 = "ADMIN" ∨ role (user request).2 = "HR" →
  employees s !! pk = Some e →
  let result := serve (employee_detail_api pk) request s in
  let s' := result.1.2 in
  ∃ e',
    employees s' !! pk = Some e' ∧
    employee_id e' = employee_id e ∧
    user_id e' = user_id e ∧
    (data request !! "department" = None → department_id e' = department_id e) ∧
    (data request !! "designation" = None → designation_id e' = designation_id e) ∧
    (data request !! "basic_salary" = None → basic_salary e' = basic_salary e) ∧
    (data request !! "date_of_joining" = None → date_of_joining e' = date_of_joining e) ∧
    (∀ k, k ≠ pk → employees s' !! k = employees s !! k) ∧
    (users s' = users s ∧ departments s' = departments s ∧
     designations s' = designations s ∧ profiles s' = profiles s) ∧
    (Employee_constraints s (assign_employee_fields (data request) e) = true →
       result.1.1 = mkResponse (EmployeeBody (pk, e')) HTTP_200_OK ∧
       department_id e' = default (department_id e) (data request !! "department") ∧
       designation_id e' = default (designation_id e) (data request !! "designation") ∧
       basic_salary e' = default (basic_salary e) (data request !! "basic_salary") ∧
       date_of_joining e' = default (date_of_joining e) (data request !! "date_of_joining")).
Proof.
  intros Hm Hrole He result s'. subst result s'.
  unfold serve, employee_detail_api, api_view.
  rewrite Hm, (not_admin_or_hr_false _ Hrole). simpl.
  run. rewrite (by_pk_Some _ _ _ He). simpl. unfold Employee_save. run.
  pose proof (assign_employee_fields_spec (data request) e) as Hspec.
  simpl in Hspec. destruct Hspec as (Hid & Hu & Hdep & Hdes & Hsal & Hdoj).
  destruct (Employee_constraints s (assign_employee_fields (data request) e)); simpl.
  - exists (assign_employee_fields (data request) e).
    rewrite lookup_insert_eq, Hdep, Hdes, Hsal, Hdoj.
    repeat split; try done; try (by intros ->).
    intros k Hk. by rewrite lookup_insert_ne.
  - exists e. repeat split; done.
Qed.

End Update.

(** ** Onboarding *)

Section Onboarding.
Context {P : Project}.
Implicit Types (request : Request) (s : Store) (vd : CreateData).

(** The four ways a valid onboarding request can end. *)
Lemma create_employee_api_run request s vd :
  method request = POST →
  not_admin_or_hr request = false →
  EmployeeCreateSerializer s (data request) = inr vd →
  (serve create_employee_api request s).1 =
    if User_constraints s (onboarded_user vd) then
      if employee_accepted s vd then
        match profiles_of (next_pk (users s)) (with_employee s vd) with
        | [] =>
            (mkResponse
               (EmployeeBody (next_pk (employees (with_user s vd)),
                              onboarded_employee (with_user s vd) (next_pk (users s)) vd))
               HTTP_201_CREATED,
             with_profile s vd)
        | _ => (server_error, with_employee s vd)
        end
      else (server_error, with_user s vd)
    else (server_error, s).
Proof.
  intros Hm Hrole Hvalid.
  unfold serve, create_employee_api, api_view.
  rewrite Hm, Hrole. simpl.
  run. rewrite Hvalid. unfold User_create_user. run.
  fold (onboarded_user vd).
  destruct (User_constraints s (onboarded_user vd)); [|reflexivity].
  simpl. unfold Employee_create. run.
  fold (with_user s vd). fold (onboarded_employee (with_user s vd) (next_pk (users s)) vd).
  fold (employee_accepted s vd).
  destruct (employee_accepted s vd); [|reflexivity].
  simpl. unfold EmployeeProfile_create. run.
  change (set_employees _ (with_user s vd)) with (with_employee s vd).
  destruct (profiles_of _ (with_employee s vd)) as [|p l]; reflexivity.
Qed.

Lemma users_with_user s vd :
  users (with_user s vd) = <[next_pk (users s) := onboarded_user vd]> (users s).
Proof. reflexivity. Qed.

Lemma users_with_employee s vd : users (with_employee s vd) = users (with_user s vd).
Proof. reflexivity. Qed.

Lemma users_with_profile s vd : users (with_profile s vd) = users (with_user s vd).
Proof. reflexivity. Qed.


(** C10. Whatever the request and its payload, a principal that is in the
    store after [create_employee_api] and was not there before has the role
    EMPLOYEE; and an onboarding answered with 201 has created such a
    principal. *)
Theorem onboarded_principal_is_employee request s :
  let result := serve create_employee_api request s in
  (∀ k u, users result.1.2 !! k = Some u → users s !! k = None →
     role u = "EMPLOYEE") ∧
  (status result.1.1 = HTTP_201_CREATED →
     ∃ k u, users s !! k = None ∧ users result.1.2 !! k = Some u ∧
            role u = "EMPLOYEE").
Proof.
  intros result. subst result.
  assert (∀ vd k u,
    <[next_pk (users s) := onboarded_user vd]> (users s) !! k = Some u →
    users s !! k = None → role u = "EMPLOYEE") as Hnew.
  { intros vd k u Hk Hold. destruct (decide (k = next_pk (users s))) as [->|Hne].
    - rewrite lookup_insert_eq in Hk. by injection Hk as <-.
    - rewrite lookup_insert_ne in Hk by done. congruence. }
  destruct (decide (method request = POST)) as [Hm|Hm]; cycle 1.
  { unfold serve, create_employee_api, api_view.
    rewrite bool_decide_eq_false_2.
    - simpl. split; [congruence|done].
    - rewrite list_elem_of_singleton. done. }
  destruct (not_admin_or_hr request) eqn:Hrole.
  { unfold serve, create_employee_api, api_view. rewrite Hm, Hrole. simpl.
    split; [congruence|done]. }
  destruct (EmployeeCreateSerializer s (data request)) as [errors|vd] eqn:Hvalid.
  { unfold serve, create_employee_api, api_view. rewrite Hm, Hrole. simpl.
    run. rewrite Hvalid. simpl. split; [congruence|done]. }
  rewrite (create_employee_api_run _ _ _ Hm Hrole Hvalid).
  destruct (User_constraints s (onboarded_user vd)); simpl.
  2: { split; [congruence|done]. }
  destruct (employee_accepted s vd); simpl.
  2: { split; [apply Hnew|done]. }
  destruct (profiles_of _ _); simpl.
  2: { split; [apply Hnew|done]. }
  split; [apply Hnew|]. intros _.
  exists (next_pk (users s)), (onboarded_user vd).
  split; [apply next_pk_fresh|]. split; [apply lookup_insert_eq|done].
Qed.

End Onboarding.

(** ** Denied requests and the store *)

Section Denied.
Context {P : Project}.
Implicit Types (request : Request) (s : Store) (v : View).

Ltac run_all :=
  unfold serve, dispatch, employee_list_api, create_employee_api,
    employee_detail_api, departments_api, update_department_manager_api,
    designations_api, employee_profile_api, view_profile_api,
    pending_profiles_api, approve_profile_api, api_view,
    User_create_user, Employee_create, EmployeeProfile_create, Employee_save,
    Department_save, User_delete, get_by_value;
  run.

Ltac split_paths :=
  repeat (case_match; run; unfold raise, ret in *; simpl in *; simplify_eq; try done).

(** C6, as the code has it.  A request answered with 403 is answered with
    PermissionDenied and has written nothing: the store is unchanged.  In
    the views gated on the actor's role alone the denial comes before any
    access to the store; [view_profile_api] denies after having read the
    Employee table (the actor's own record, the target's record), at most
    twice, and nothing else. *)
Theorem denied_request_writes_nothing v request s :
  status (serve (dispatch v) request s).1.1 = HTTP_403_FORBIDDEN →
  (serve (dispatch v) request s).1.1 = PermissionDenied ∧
  (serve (dispatch v) request s).1.2 = s ∧
  forallb is_read (serve (dispatch v) request s).2 = true ∧
  (v ≠ ViewProfile → (serve (dispatch v) request s).2 = []) ∧
  (v = ViewProfile →
     (serve (dispatch v) request s).2 = [] ∨
     (serve (dispatch v) request s).2 = [Read TEmployee] ∨
     (serve (dispatch v) request s).2 = [Read TEmployee; Read TEmployee]).
Proof.
  destruct v; run_all.
  all: intros Hs; split_paths.
  all: split; [done|]; split; [done|]; split; [done|]; split; [done|];
    intros _; simpl; eauto.
Qed.

End Denied.

(** ** Asking for one's own profile *)

Section OwnProfile.
Context {P : Project}.
Implicit Types (request : Request) (s : Store).

(** C7, as the code has it.  An actor of any role for whom no Employee
    record exists, and who names no target, is served by
    [employee_profile_api]: the profile is created when absent and returned
    without an employee record, never as an error.  The same actor asking
    [view_profile_api] without a target id is answered with
    PermissionDenied. *)
Theorem own_profile_without_employee_record request s :
  method request = GET →
  (∀ k e, employees s !! k = Some e → user_id e ≠ (user request).1) →
  (length (profiles_of (user request).1 s) ≤ 1)%nat →
  (∃ profile,
     (serve employee_profile_api request s).1.1
       = mkResponse (ProfileBody profile None) HTTP_200_OK ∧
     employee profile.2 = (user request).1 ∧
     profiles (serve employee_profile_api request s).1.2 !! profile.1
       = Some profile.2 ∧
     (profiles_of (user request).1 s = [] →
        profiles s !! profile.1 = None ∧
        profile.2 = new_profile (user request).1 ∧
        (serve employee_profile_api request s).1.2
          = set_profiles (insert profile.1 profile.2) s) ∧
     (profiles_of (user request).1 s ≠ [] →
        (serve employee_profile_api request s).1.2 = s)) ∧
  (no_emp_id (query_params request !! "emp") = true →
     (serve view_profile_api request s).1 = (PermissionDenied, s)).
Proof.
  intros Hm Hnone Hlen.
  assert (employees_of (user request).1 s = []) as Hsel.
  { apply select_nil. intros k e Hk. apply bool_decide_eq_false. eauto. }
  split.
  - unfold serve, employee_profile_api, api_view. rewrite Hm. simpl. run.
    destruct (profiles_of (user request).1 s) as [|p [|q l]] eqn:Hp;
      simpl in *; [| |lia].
    + unfold employees_of in *. simpl. rewrite Hsel. simpl.
      eexists (_, _). simpl. split; [reflexivity|]. split; [reflexivity|].
      split; [apply lookup_insert_eq|]. split; [|done].
      intros _. split; [apply next_pk_fresh|done].
    + rewrite Hsel. simpl. exists p. split; [reflexivity|].
      assert (p ∈ profiles_of (user request).1 s) as Hin by (rewrite Hp; left).
      split; [by apply (profiles_of_owner _ s)|].
      split; [|split; [done|done]].
      destruct p as [k p]. unfold profiles_of in Hin.
      by apply elem_of_select in Hin as [Hk _].
  - intros Hemp. unfold serve, view_profile_api, api_view. rewrite Hm. simpl.
    run. rewrite Hemp.
    destruct (bool_decide (role (user request).2 ∈ ["MANAGER"; "EMPLOYEE"]));
      simpl; [rewrite Hsel|]; reflexivity.
Qed.

End OwnProfile.

(** * The theorems at work on the concrete store *)

Module Runs.
Import Demo.

(** [lena] is a MANAGER with no employee record. *)
Lemma view_profile_without_own_record_denied_witness :
  serve view_profile_api (get lead (Some "E2")) store
  = (PermissionDenied, store, [Read TEmployee]).
Proof.
  apply view_profile_without_own_record_denied.
  - reflexivity.
  - left. reflexivity.
  - by_map_forall.
Defined.

(** [mia] of department 1 is shown [eli] of department 1, and is refused
    [omar] of department 2. *)
Lemma manager_view_scoped_to_department_witness :
  (∃ profile,
     (serve view_profile_api (get manager (Some "E2")) store).1.1
       = mkResponse (ViewBody E2 profile) HTTP_200_OK ∧
     employee profile.2 = 4) ∧
  serve view_profile_api (get manager (Some "E3")) store
    = (PermissionDenied, store, [Read TEmployee; Read TEmployee]).
Proof.
  split.
  - destruct (manager_view_scoped_to_department
                (get manager (Some "E2")) store E1 E2 "E2") as [Hallow _].
    + reflexivity.
    + reflexivity.
    + reflexivity.
    + reflexivity.
    + discriminate.
    + reflexivity.
    + apply Hallow.
      * reflexivity.
      * vm_compute. eauto.
      * vm_compute. lia.
  - destruct (manager_view_scoped_to_department
                (get manager (Some "E3")) store E1 E3 "E3") as [_ Hdeny].
    + reflexivity.
    + reflexivity.
    + reflexivity.
    + reflexivity.
    + discriminate.
    + reflexivity.
    + apply Hdeny. discriminate.
Defined.

Lemma self_edit_resets_verification_witness :
  ∃ p',
    (serve (employee_profile_api (P := project)) self_edit store).1.1
      = mkResponse (ProfileBody (2, p') None) HTTP_200_OK ∧
    profiles (serve (employee_profile_api (P := project)) self_edit store).1.2 !! 2
      = Some p' ∧
    verified p' = false.
Proof.
  apply (self_edit_resets_verification (P := project) self_edit store
           (2, mkEmployeeProfile 4 true ∅) (data self_edit)).
  - reflexivity.
  - reflexivity.
  - reflexivity.
Defined.

(** HR approves profile 2, which is verified already. *)
Lemma approve_is_idempotent_witness :
  let once := serve (approve_profile_api 2) (send hr POST []) store in
  once.1.1 = mkResponse (MessageBody "Profile approved successfully") HTTP_200_OK ∧
  verified <$> profiles once.1.2 !! 2 = Some true ∧
  serve (approve_profile_api 2) (send hr POST []) once.1.2 = once ∧
  (verified (mkEmployeeProfile 4 true ∅) = true → once.1.2 = store).
Proof.
  apply (approve_is_idempotent (send hr POST []) store 2 (mkEmployeeProfile 4 true ∅)).
  - reflexivity.
  - right. reflexivity.
  - reflexivity.
Defined.

(** Profiles 1 ([mia], MANAGER) and 3 ([omar], EMPLOYEE) are unverified;
    only profile 3 is pending. *)
Lemma pending_profiles_exact_witness :
  ∃ pending,
    serve pending_profiles_api (get admin None) store
      = (mkResponse (ProfileListBody pending) HTTP_200_OK, store, [Read TProfile]) ∧
    NoDup pending ∧
    (∀ k p, (k, p) ∈ pending ↔
       profiles store !! k = Some p ∧ verified p = false ∧
       ∃ u, users store !! employee p = Some u ∧ role u = "EMPLOYEE") ∧
    (∀ k p u, (k, p) ∈ pending → users store !! employee p = Some u →
       role u ≠ "MANAGER" ∧ role u ≠ "HR" ∧ role u ≠ "ADMIN").
Proof.
  apply (pending_profiles_exact (get admin None) store).
  - reflexivity.
  - left. reflexivity.
Defined.

(** C6, as stated, fails: [mia] asks for [omar]'s profile and is denied,
    after the Employee table has been read twice. *)
Lemma denied_view_has_read_the_store :
  let result := serve (dispatch (P := project) ViewProfile) (get manager (Some "E3")) store in
  result.1.1 = PermissionDenied ∧
  result.2 = [Read TEmployee; Read TEmployee] ∧
  result.2 ≠ [].
Proof. vm_compute. split; [reflexivity|]. split; [reflexivity|discriminate]. Qed.

Lemma denied_request_writes_nothing_witness :
  let result := serve (dispatch (P := project) ViewProfile) (get manager (Some "E3")) store in
  result.1.1 = PermissionDenied ∧
  result.1.2 = store ∧
  forallb is_read result.2 = true ∧
  (ViewProfile ≠ ViewProfile → result.2 = []) ∧
  (ViewProfile = ViewProfile →
     result.2 = [] ∨ result.2 = [Read TEmployee] ∨
     result.2 = [Read TEmployee; Read TEmployee]).
Proof.
  apply (denied_request_writes_nothing (P := project) ViewProfile
           (get manager (Some "E3")) store).
  reflexivity.
Defined.

(** C7, as stated, fails: the administrator has no employee record, names
    no target, and is answered with an error by [view_profile_api]; no
    profile is created. *)
Lemma view_own_profile_without_record_is_denied :
  employees_of admin.1 store = [] ∧
  query_params (get admin None) !! "emp" = None ∧
  serve view_profile_api (get admin None) store = (PermissionDenied, store, []) ∧
  status PermissionDenied = HTTP_403_FORBIDDEN.
Proof. vm_compute. repeat split; reflexivity. Qed.

Lemma own_profile_without_employee_record_witness :
  (∃ profile,
     (serve (employee_profile_api (P := project)) (get admin None) store).1.1
       = mkResponse (ProfileBody profile None) HTTP_200_OK ∧
     employee profile.2 = 1) ∧
  (serve view_profile_api (get admin None) store).1 = (PermissionDenied, store).
Proof.
  destruct (own_profile_without_employee_record (P := project) (get admin None) store)
    as [(profile & Hresp & Howner & _) Hview].
  - reflexivity.
  - by_map_forall.
  - vm_compute. lia.
  - split; [by exists profile|]. apply Hview. reflexivity.
Defined.

Lemma employee_update_is_partial_witness :
  ∃ e',
    employees (serve (employee_detail_api (P := project) 2) raise_salary store).1.2 !! 2
      = Some e' ∧
    department_id e' = VInt 1 ∧
    designation_id e' = VInt 2 ∧
    date_of_joining e' = VStr "2021-02-01" ∧
    basic_salary e' = VInt 6000.
Proof.
  destruct (employee_update_is_partial (P := project) 2 raise_salary store E2.2)
    as (e' & He' & _ & _ & Hdep & Hdes & _ & Hdoj & _ & _ & Hok).
  - reflexivity.
  - right. reflexivity.
  - reflexivity.
  - exists e'. split; [exact He'|].
    split; [apply Hdep; reflexivity|].
    split; [apply Hdes; reflexivity|].
    split; [apply Hdoj; reflexivity|].
    apply Hok. reflexivity.
Defined.



(** The payload asks for the role ADMIN; [nina] is onboarded as EMPLOYEE. *)
Lemma onboarded_principal_is_employee_witness :
  ∃ k u,
    users store !! k = None ∧
    users (serve (create_employee_api (P := project)) (onboard 1) store).1.2 !! k = Some u ∧
    role u = "EMPLOYEE".
Proof.
  apply (onboarded_principal_is_employee (P := project) (onboard 1) store).
  reflexivity.
Defined.

End Runs.

(** * Further properties of the views *)

Ltac run_views :=
  unfold serve, dispatch, employee_list_api, create_employee_api,
    employee_detail_api, departments_api, update_department_manager_api,
    designations_api, employee_profile_api, view_profile_api,
    pending_profiles_api, approve_profile_api, api_view,
    User_create_user, Employee_create, EmployeeProfile_create, Employee_save,
    Department_save, User_delete, get_by_value;
  run.

Ltac case_paths :=
  repeat (case_match; run; unfold raise, ret in *; simpl in *; simplify_eq; try done).

(** ** More QuerySet lemmas *)

Section MoreQuerySets.
Context {A : Type}.
Implicit Types (P : A → bool) (m : gmap Z A).

Lemma select_insert_fresh P m k a :
  m !! k = None →
  select P (<[k := a]> m) ≡ₚ (if P a then [(k, a)] else []) ++ select P m.
Proof.
  intros Hk. unfold select. rewrite (map_to_list_insert m k a Hk).
  rewrite filter_cons. simpl. by destruct (P a); case_decide.
Qed.

Lemma select_insert_fresh_nil P m k a :
  m !! k = None → P a = true → select P m = [] →
  select P (<[k := a]> m) = [(k, a)].
Proof.
  intros Hk Ha Hnil. apply Permutation_singleton_r.
  rewrite (select_insert_fresh P m k a Hk), Ha, Hnil. done.
Qed.

End MoreQuerySets.

Lemma not_admin_or_hr_true request :
  role (user request).2 ≠ "ADMIN" → role (user request).2 ≠ "HR" →
  not_admin_or_hr request = true.
Proof.
  intros Ha Hh. unfold not_admin_or_hr. apply bool_decide_eq_true.
  rewrite !not_elem_of_cons. repeat split; try done. apply not_elem_of_nil.
Qed.

(** ** Decorators and gates *)

Section Gates.
Context {P : Project}.
Implicit Types (request : Request) (s : Store) (v : View).

(** X1. In each of the six views that start with the role test, an actor
    whose role is neither ADMIN nor HR is answered with PermissionDenied
    before anything is read or written. *)
Theorem role_gate_denies_first v request s :
  role_gated v = true →
  method request ∈ allowed_methods v →
  role (user request).2 ≠ "ADMIN" →
  role (user request).2 ≠ "HR" →
  serve (dispatch v) request s = (PermissionDenied, s, []).
Proof.
  intros Hg Hm Ha Hh. pose proof (not_admin_or_hr_true _ Ha Hh) as Hgate.
  destruct v; try discriminate Hg; simpl in Hm;
    unfold serve, dispatch, employee_list_api, create_employee_api,
      employee_detail_api, update_department_manager_api,
      pending_profiles_api, approve_profile_api, api_view;
    rewrite (bool_decide_eq_true_2 _ Hm), Hgate; reflexivity.
Qed.

(** X3. Which tables a view can change, whatever the request: no view
    changes the designations; only the manager assignment changes the
    departments; only onboarding and the employee detail view change
    principals and employees; the four listing views change nothing. *)
Theorem views_change_only_their_tables v request s :
  let s' := (serve (dispatch v) request s).1.2 in
  designations s' = designations s ∧
  match v with
  | UpdateDepartmentManager => True
  | _ => departments s' = departments s
  end ∧
  match v with
  | CreateEmployee | EmployeeDetail _ => True
  | _ => users s' = users s ∧ employees s' = employees s
  end ∧
  match v with
  | EmployeeList | Departments | Designations | PendingProfiles => s' = s
  | EmployeeDetail _ | UpdateDepartmentManager => profiles s' = profiles s
  | _ => True
  end.
Proof.
  destruct v; run_views; case_paths.
Qed.

End Gates.

(** ** Listing *)

Section Listing.
Implicit Types (request : Request) (s : Store).

(** X4. For an ADMIN or HR actor [employee_list_api] answers 200 with
    every employee of the store, each once, and nothing else; the store is
    unchanged. *)
Theorem employee_list_is_complete request s :
  method request = GET →
  role (user request).2 = "ADMIN" ∨ role (user request).2 = "HR" →
  ∃ l,
    serve employee_list_api request s
      = (mkResponse (EmployeeListBody l) HTTP_200_OK, s, [Read TEmployee]) ∧
    NoDup l ∧
    ∀ k e, (k, e) ∈ l ↔ employees s !! k = Some e.
Proof.
  intros Hm Hrole.
  unfold serve, employee_list_api, api_view.
  rewrite Hm, (not_admin_or_hr_false _ Hrole). simpl. run.
  eexists. split; [reflexivity|]. split; [apply NoDup_map_to_list|].
  intros k e. apply elem_of_map_to_list.
Qed.

(** X5. [departments_api] and [designations_api] have no role test: any
    authenticated actor, whatever the role, gets 200 with every department
    (every designation) of the store, and the store is unchanged. *)
Theorem departments_and_designations_are_open request s :
  method request = GET →
  (∃ l,
     serve departments_api request s
       = (mkResponse (DepartmentListBody l) HTTP_200_OK, s, [Read TDepartment]) ∧
     ∀ k d, (k, d) ∈ l ↔ departments s !! k = Some d) ∧
  (∃ l,
     serve designations_api request s
       = (mkResponse (DesignationListBody l) HTTP_200_OK, s, [Read TDesignation]) ∧
     ∀ k d, (k, d) ∈ l ↔ designations s !! k = Some d).
Proof.
  intros Hm. split.
  - unfold serve, departments_api, api_view. rewrite Hm. simpl. run.
    eexists. split; [reflexivity|]. intros k d. apply elem_of_map_to_list.
  - unfold serve, designations_api, api_view. rewrite Hm. simpl. run.
    eexists. split; [reflexivity|]. intros k d. apply elem_of_map_to_list.
Qed.

End Listing.

(** ** The employee detail view *)

Section Detail.
Context {P : Project}.
Implicit Types (request : Request) (s : Store).

(** X6. Whatever the method (GET, PUT or DELETE), [employee_detail_api] on
    a primary key that names no employee answers 404 and leaves the store
    unchanged. *)
Theorem employee_detail_unknown_pk pk request s :
  method request ∈ [GET; PUT; DELETE] →
  role (user request).2 = "ADMIN" ∨ role (user request).2 = "HR" →
  employees s !! pk = None →
  serve (employee_detail_api pk) request s = (not_found, s, [Read TEmployee]).
Proof.
  intros Hm Hrole Hpk.
  unfold serve, employee_detail_api, api_view.
  rewrite (bool_decide_eq_true_2 _ Hm), (not_admin_or_hr_false _ Hrole). simpl.
  run. unfold by_pk. rewrite Hpk. reflexivity.
Qed.

(** X7. Update then read: after a PUT, whether the database accepts it or
    not, a GET of the same employee returns exactly the stored record, and
    in it the identifier, the principal and every attribute the payload did
    not name have the value they had before the PUT; the GET changes
    nothing. *)
Theorem employee_update_then_get pk put get s e :
  method put = PUT →
  method get = GET →
  role (user put).2 = "ADMIN" ∨ role (user put).2 = "HR" →
  role (user get).2 = "ADMIN" ∨ role (user get).2 = "HR" →
  employees s !! pk = Some e →
  let s' := (serve (employee_detail_api pk) put s).1.2 in
  ∃ e',
    serve (employee_detail_api pk) get s'
      = (mkResponse (EmployeeBody (pk, e')) HTTP_200_OK, s', [Read TEmployee]) ∧
    employees s' !! pk = Some e' ∧
    employee_id e' = employee_id e ∧
    user_id e' = user_id e ∧
    (data put !! "department" = None → department_id e' = department_id e) ∧
    (data put !! "designation" = None → designation_id e' = designation_id e) ∧
    (data put !! "basic_salary" = None → basic_salary e' = basic_salary e) ∧
    (data put !! "date_of_joining" = None → date_of_joining e' = date_of_joining e).
Proof.
  intros Hput Hget Hr1 Hr2 He s'. subst s'.
  unfold serve, employee_detail_api, api_view.
  rewrite Hput, Hget, (not_admin_or_hr_false _ Hr1), (not_admin_or_hr_false _ Hr2).
  simpl. run. rewrite (by_pk_Some _ _ _ He). simpl. unfold Employee_save. run.
  pose proof (assign_employee_fields_spec (data put) e) as Hspec.
  simpl in Hspec. destruct Hspec as (Hid & Hu & Hdep & Hdes & Hsal & Hdoj).
  destruct (Employee_constraints s (assign_employee_fields (data put) e)); simpl.
  - exists (assign_employee_fields (data put) e).
    rewrite (by_pk_Some _ pk (assign_employee_fields (data put) e))
      by apply lookup_insert_eq.
    rewrite lookup_insert_eq, Hdep, Hdes, Hsal, Hdoj.
    repeat split; try done; by intros ->.
  - exists e. rewrite (by_pk_Some _ _ _ He). repeat split; done.
Qed.

(** X8. A DELETE on an existing employee deletes the employee's owning
    principal, not only the employee row: the answer is 204, the principal
    is gone from the store and every other principal is kept.  When the
    principal's row is missing the request fails and nothing is deleted. *)
Theorem employee_delete_removes_principal pk request s e :
  method request = DELETE →
  role (user request).2 = "ADMIN" ∨ role (user request).2 = "HR" →
  employees s !! pk = Some e →
  let result := serve (employee_detail_api pk) request s in
  (is_Some (users s !! user_id e) →
     result.1.1 = mkResponse EmptyBody HTTP_204_NO_CONTENT ∧
     users result.1.2 !! user_id e = None ∧
     ∀ k, k ≠ user_id e → users result.1.2 !! k = users s !! k) ∧
  (users s !! user_id e = None →
     result.1 = (server_error, s)).
Proof.
  intros Hm Hrole He result. subst result.
  unfold serve, employee_detail_api, api_view.
  rewrite Hm, (not_admin_or_hr_false _ Hrole). simpl.
  run. rewrite (by_pk_Some _ _ _ He). simpl. unfold by_pk. split.
  - intros [u Hu]. rewrite Hu. simpl. unfold User_delete. run. simpl.
    split; [reflexivity|]. split; [apply lookup_delete_eq|].
    intros k Hk. by apply lookup_delete_ne.
  - intros Hu. rewrite Hu. reflexivity.
Qed.

End Detail.

(** ** Assigning a department's manager *)

Section DepartmentManager.
Context {P : Project}.
Implicit Types (request : Request) (s : Store).

(** [request.data.get('department_id')] and [request.data.get('manager_id')] *)
Local Abbreviation department_of request := (default VNone (data request !! "department_id")).
Local Abbreviation manager_of request := (default VNone (data request !! "manager_id")).

(** X9. A manager id that is absent, [None], [0] or the empty string
    clears the assignment: the department's manager becomes empty, its
    name and every other department are kept, and the Employee table is
    not even read. *)
Theorem falsy_manager_id_clears_manager request s d dep :
  method request = POST →
  role (user request).2 = "ADMIN" ∨ role (user request).2 = "HR" →
  pk_to_python (department_of request) = Some (Some d) →
  departments s !! d = Some dep →
  truthy (manager_of request) = false →
  serve update_department_manager_api request s
    = (mkResponse (DepartmentBody (d, mkDepartment (department_name dep) None)) HTTP_200_OK,
       set_departments (insert d (mkDepartment (department_name dep) None)) s,
       [Read TDepartment; Write TDepartment]).
Proof.
  intros Hm Hrole Hd Hdep Hfalsy.
  unfold serve, update_department_manager_api, api_view.
  rewrite Hm, (not_admin_or_hr_false _ Hrole). simpl.
  unfold get_by_value. rewrite Hd. run.
  rewrite (by_pk_Some _ _ _ Hdep). simpl. rewrite Hfalsy.
  unfold Department_save. run. reflexivity.
Qed.

(** X10. A manager id that names an existing employee makes that employee
    the department's manager.  The view does not look at the employee's
    own department: an employee of any department is accepted. *)
Theorem manager_id_assigns_any_employee request s d dep k e :
  method request = POST →
  role (user request).2 = "ADMIN" ∨ role (user request).2 = "HR" →
  pk_to_python (department_of request) = Some (Some d) →
  departments s !! d = Some dep →
  truthy (manager_of request) = true →
  pk_to_python (manager_of request) = Some (Some k) →
  employees s !! k = Some e →
  serve update_department_manager_api request s
    = (mkResponse (DepartmentBody (d, mkDepartment (department_name dep) (Some k))) HTTP_200_OK,
       set_departments (insert d (mkDepartment (department_name dep) (Some k))) s,
       [Read TDepartment; Read TEmployee; Write TDepartment]).
Proof.
  intros Hm Hrole Hd Hdep Htruthy Hk He.
  unfold serve, update_department_manager_api, api_view.
  rewrite Hm, (not_admin_or_hr_false _ Hrole). simpl.
  unfold get_by_value. rewrite Hd. run.
  rewrite (by_pk_Some _ _ _ Hdep). simpl. rewrite Htruthy, Hk. run.
  rewrite (by_pk_Some _ _ _ He). simpl.
  unfold Department_save. run. reflexivity.
Qed.

(** X11. An unknown department, or a manager id that names no employee, is
    answered with 404 and changes nothing: in particular the department
    keeps the manager it had. *)
Theorem unknown_department_or_manager_is_404 request s d :
  method request = POST →
  role (user request).2 = "ADMIN" ∨ role (user request).2 = "HR" →
  pk_to_python (department_of request) = Some (Some d) →
  (departments s !! d = None →
     (serve update_department_manager_api request s).1 = (not_found, s)) ∧
  (∀ k, is_Some (departments s !! d) →
        truthy (manager_of request) = true →
        pk_to_python (manager_of request) = Some (Some k) →
        employees s !! k = None →
     (serve update_department_manager_api request s).1 = (not_found, s)).
Proof.
  intros Hm Hrole Hd.
  unfold serve, update_department_manager_api, api_view.
  rewrite Hm, (not_admin_or_hr_false _ Hrole). simpl.
  unfold get_by_value. rewrite Hd. run. unfold by_pk. split.
  - intros Hnone. rewrite Hnone. reflexivity.
  - intros k [dep Hdep] Htruthy Hk Hnone. rewrite Hdep. simpl.
    rewrite Htruthy, Hk. run. rewrite Hnone. reflexivity.
Qed.

End DepartmentManager.

(** ** More on who may view a profile *)

Section MoreViewProfile.
Implicit Types (request : Request) (s : Store).

(** X12. An ADMIN or HR actor may view the profile of any existing
    employee, whatever the departments and without an employee record of
    their own.  The view creates the target's profile when it is absent,
    so this GET can write; when the profile exists the store is
    unchanged. *)
Theorem admin_views_any_profile request s target emp_id :
  method request = GET →
  role (user request).2 = "ADMIN" ∨ role (user request).2 = "HR" →
  query_params request !! "emp" = Some emp_id →
  emp_id ≠ "" →
  employees_with_id emp_id s = [target] →
  is_Some (users s !! user_id target.2) →
  (length (profiles_of (user_id target.2) s) ≤ 1)%nat →
  let result := serve view_profile_api request s in
  ∃ profile,
    result.1.1 = mkResponse (ViewBody target profile) HTTP_200_OK ∧
    employee profile.2 = user_id target.2 ∧
    profiles result.1.2 !! profile.1 = Some profile.2 ∧
    (profiles_of (user_id target.2) s = [] →
       profile.2 = new_profile (user_id target.2) ∧
       result.1.2 = set_profiles (insert profile.1 profile.2) s) ∧
    (profiles_of (user_id target.2) s ≠ [] → result.1.2 = s).
Proof.
  intros Hm Hrole Hemp Hne Htarget [u Hu] Hlen result. subst result.
  unfold serve, view_profile_api, api_view. rewrite Hm, Hemp. simpl.
  assert (bool_decide (role (user request).2 ∈ ["MANAGER"; "EMPLOYEE"]) = false) as ->.
  { by destruct Hrole as [-> | ->]. }
  assert (bool_decide (role (user request).2 ∈ ["ADMIN"; "HR"]) = true) as Hadm.
  { by destruct Hrole as [-> | ->]. }
  run. simpl. rewrite (bool_decide_eq_false_2 _ Hne). run. rewrite Htarget. simpl.
  rewrite Hadm. run. unfold by_pk. rewrite Hu. simpl.
  destruct (profiles_of _ s) as [|p [|q l]] eqn:Hp; simpl in *; [| |lia].
  - eexists (_, _). simpl. split; [reflexivity|]. split; [reflexivity|].
    split; [apply lookup_insert_eq|]. split; [done|done].
  - exists p. split; [reflexivity|].
    assert (p ∈ profiles_of (user_id target.2) s) as Hin by (rewrite Hp; left).
    split; [by apply (profiles_of_owner _ s)|].
    split; [|split; [done|done]].
    destruct p as [k p]. unfold profiles_of in Hin.
    by apply elem_of_select in Hin as [Hk _].
Qed.

(** X13. An EMPLOYEE actor with an own employee record who names a target
    is served only when the target is the actor's own record: any other
    existing employee, of the same department or not, is refused with
    PermissionDenied. *)
Theorem employee_views_only_own_profile request s me target emp_id :
  method request = GET →
  role (user request).2 = "EMPLOYEE" →
  employees_of (user request).1 s = [me] →
  query_params request !! "emp" = Some emp_id →
  emp_id ≠ "" →
  employees_with_id emp_id s = [target] →
  (user_id target.2 ≠ (user request).1 →
     serve view_profile_api request s
       = (PermissionDenied, s, [Read TEmployee; Read TEmployee])) ∧
  (user_id target.2 = (user request).1 →
     is_Some (users s !! user_id target.2) →
     (length (profiles_of (user_id target.2) s) ≤ 1)%nat →
     ∃ profile,
       (serve view_profile_api request s).1.1
         = mkResponse (ViewBody target profile) HTTP_200_OK ∧
       employee profile.2 = (user request).1).
Proof.
  intros Hm Hrole Hme Hemp Hne Htarget.
  unfold serve, view_profile_api, api_view. rewrite Hm, Hrole, Hemp. simpl.
  run. rewrite Hme. simpl. rewrite (bool_decide_eq_false_2 _ Hne).
  run. rewrite Htarget. simpl. split.
  - intros Hother. by rewrite bool_decide_eq_true_2.
  - intros Hself [u Hu] Hlen. rewrite bool_decide_eq_false_2 by (by intros ?).
    unfold by_pk. cbn [db log]. rewrite Hu. simpl.
    destruct (profiles_of _ s) as [|p [|q l]] eqn:Hp; simpl in *; [| |lia].
    + by eexists.
    + exists p. split; [done|]. rewrite <- Hself.
      apply (profiles_of_owner _ s). rewrite Hp. left.
Qed.

(** X14. The target is looked up before the permission test: an actor who
    gets past the own-record step (ADMIN, HR, or a MANAGER or EMPLOYEE with
    an employee record) and names an employee id that does not exist is
    answered with 404, not with PermissionDenied; the store is unchanged. *)
Theorem unknown_target_is_404 request s emp_id :
  method request = GET →
  query_params request !! "emp" = Some emp_id →
  emp_id ≠ "" →
  employees_with_id emp_id s = [] →
  (role (user request).2 = "MANAGER" ∨ role (user request).2 = "EMPLOYEE" →
     ∃ me, employees_of (user request).1 s = [me]) →
  (serve view_profile_api request s).1 = (not_found, s).
Proof.
  intros Hm Hemp Hne Htarget Hown.
  unfold serve, view_profile_api, api_view. rewrite Hm, Hemp. simpl.
  destruct (bool_decide (role (user request).2 ∈ ["MANAGER"; "EMPLOYEE"])) eqn:Hr.
  - apply bool_decide_eq_true in Hr.
    rewrite !elem_of_cons in Hr.
    destruct Hown as [me Hme].
    { destruct Hr as [?|[?|Hr]]; [by left|by right|by apply elem_of_nil in Hr]. }
    run. rewrite Hme. simpl. rewrite (bool_decide_eq_false_2 _ Hne).
    run. rewrite Htarget. reflexivity.
  - run. simpl. rewrite (bool_decide_eq_false_2 _ Hne).
    run. rewrite Htarget. reflexivity.
Qed.

(** X15. An empty [emp] parameter is no target: [?emp=] is answered
    exactly as a request without the parameter. *)
Theorem empty_emp_is_no_target u m d (q : gmap string string) s :
  serve view_profile_api (mkRequest u m d (<["emp" := ""]> q)) s
  = serve view_profile_api (mkRequest u m d (delete "emp" q)) s.
Proof.
  unfold serve, view_profile_api, api_view. simpl.
  rewrite lookup_insert_eq, lookup_delete_eq. reflexivity.
Qed.

(** X16. A MANAGER or EMPLOYEE with an employee record who names no target
    is shown their own employee record and their own profile: the stored
    profile when they have one, the store being unchanged, and otherwise a
    new unverified profile that the view adds to the store. *)
Theorem own_view_returns_own_record request s me :
  method request = GET →
  role (user request).2 = "MANAGER" ∨ role (user request).2 = "EMPLOYEE" →
  employees_of (user request).1 s = [me] →
  no_emp_id (query_params request !! "emp") = true →
  is_Some (users s !! (user request).1) →
  user_id me.2 = (user request).1 ∧
  (∀ p, profiles_of (user request).1 s = [p] →
     employee p.2 = (user request).1 ∧
     (serve view_profile_api request s).1
       = (mkResponse (ViewBody me p) HTTP_200_OK, s)) ∧
  (profiles_of (user request).1 s = [] →
     (serve view_profile_api request s).1
       = (mkResponse
            (ViewBody me (next_pk (profiles s), new_profile (user request).1))
            HTTP_200_OK,
          set_profiles
            (insert (next_pk (profiles s)) (new_profile (user request).1)) s)).
Proof.
  intros Hm Hrole Hme Hemp [u Hu].
  assert (user_id me.2 = (user request).1) as Hown.
  { assert (me ∈ employees_of (user request).1 s) as Hin by (rewrite Hme; left).
    destruct me as [k e]. unfold employees_of in Hin.
    apply elem_of_select in Hin as [_ He]. by apply bool_decide_eq_true in He. }
  split; [done|].
  unfold serve, view_profile_api, api_view. rewrite Hm. simpl.
  assert (bool_decide (role (user request).2 ∈ ["MANAGER"; "EMPLOYEE"]) = true) as ->.
  { by destruct Hrole as [-> | ->]. }
  run. rewrite Hme. simpl. rewrite Hemp. run. unfold by_pk.
  rewrite Hown, Hu. simpl. split.
  - intros p Hp. rewrite Hp. split; [|reflexivity].
    apply (profiles_of_owner _ s). rewrite Hp. left.
  - intros Hp. rewrite Hp. reflexivity.
Qed.

(** X17. Fail closed: an actor whose role is none of ADMIN, HR, MANAGER and
    EMPLOYEE is never shown a profile by [view_profile_api]: the answer is
    PermissionDenied, or 404 when the named target does not exist, or a
    server error when the target id is ambiguous; the store is unchanged. *)
Theorem unknown_role_sees_no_profile request s :
  method request = GET →
  role (user request).2 ∉ ["ADMIN"; "HR"; "MANAGER"; "EMPLOYEE"] →
  ((serve view_profile_api request s).1.1 = PermissionDenied ∨
   (serve view_profile_api request s).1.1 = not_found ∨
   (serve view_profile_api request s).1.1 = server_error) ∧
  (serve view_profile_api request s).1.2 = s.
Proof.
  intros Hm Hrole.
  rewrite !not_elem_of_cons in Hrole. destruct Hrole as (Ha & Hh & Hmg & He & _).
  unfold serve, view_profile_api, api_view. rewrite Hm. simpl.
  rewrite (bool_decide_eq_false_2 (_ ∈ ["MANAGER"; "EMPLOYEE"])); cycle 1.
  { rewrite !not_elem_of_cons. repeat split; try done. apply not_elem_of_nil. }
  run. simpl.
  destruct (no_emp_id (query_params request !! "emp")); run; [by split; [left|]|].
  destruct (employees_with_id _ s) as [|t [|t' l]]; simpl in *.
  - by split; [right; left|].
  - rewrite (bool_decide_eq_false_2 (_ ∈ ["ADMIN"; "HR"])); cycle 1.
    { rewrite !not_elem_of_cons. repeat split; try done. apply not_elem_of_nil. }
    rewrite (bool_decide_eq_false_2 _ Hmg). by split; [left|].
  - by split; [right; right|].
Qed.

End MoreViewProfile.

(** ** More on onboarding *)

Section MoreOnboarding.
Context {P : Project}.
Implicit Types (request : Request) (s : Store) (vd : CreateData).

(** X18. A payload the serializer rejects is answered with 400 and the
    serializer's errors; nothing is created and the store is unchanged. *)
Theorem invalid_onboarding_creates_nothing request s errors :
  method request = POST →
  role (user request).2 = "ADMIN" ∨ role (user request).2 = "HR" →
  EmployeeCreateSerializer s (data request) = inl errors →
  (serve create_employee_api request s).1
    = (mkResponse (ErrorsBody errors) HTTP_400_BAD_REQUEST, s).
Proof.
  intros Hm Hrole Hinvalid.
  unfold serve, create_employee_api, api_view.
  rewrite Hm, (not_admin_or_hr_false _ Hrole). simpl. run.
  rewrite Hinvalid. reflexivity.
Qed.

(** What a 201 answer tells about the three steps. *)
Lemma created_means_all_steps request s vd :
  method request = POST →
  not_admin_or_hr request = false →
  EmployeeCreateSerializer s (data request) = inr vd →
  status (serve create_employee_api request s).1.1 = HTTP_201_CREATED →
  (serve create_employee_api request s).1.2 = with_profile s vd ∧
  employees_of (next_pk (users s)) (with_user s vd) = [] ∧
  profiles_of (next_pk (users s)) (with_employee s vd) = [].
Proof.
  intros Hm Hrole Hvalid.
  rewrite (create_employee_api_run _ _ _ Hm Hrole Hvalid).
  destruct (User_constraints s (onboarded_user vd)); [|discriminate].
  destruct (employee_accepted s vd) eqn:Hacc; [|discriminate].
  destruct (profiles_of _ (with_employee s vd)); [|discriminate].
  intros _. split; [reflexivity|]. split; [|reflexivity].
  unfold employee_accepted in Hacc. apply andb_true_iff in Hacc as [_ Hnone].
  by apply bool_decide_eq_true in Hnone.
Qed.

(** X19. An onboarding answered with 201 has created, under fresh primary
    keys, a principal, exactly one employee record that refers to it and
    exactly one profile that it owns, the profile being unverified; every
    row the store held before is still there, unchanged. *)
Theorem onboarding_creates_linked_records request s vd :
  method request = POST →
  role (user request).2 = "ADMIN" ∨ role (user request).2 = "HR" →
  EmployeeCreateSerializer s (data request) = inr vd →
  status (serve create_employee_api request s).1.1 = HTTP_201_CREATED →
  let s' := (serve create_employee_api request s).1.2 in
  let uid := next_pk (users s) in
  users s !! uid = None ∧
  users s' !! uid = Some (onboarded_user vd) ∧
  (∃ e, employees_of uid s' = [(next_pk (employees s), e)] ∧
        employees s !! next_pk (employees s) = None ∧
        department_id e = cd_department vd ∧
        designation_id e = cd_designation vd ∧
        date_of_joining e = cd_date_of_joining vd ∧
        basic_salary e = cd_basic_salary vd) ∧
  profiles_of uid s' = [(next_pk (profiles s), new_profile uid)] ∧
  profiles s !! next_pk (profiles s) = None ∧
  (∀ k u, users s !! k = Some u → users s' !! k = Some u) ∧
  (∀ k e, employees s !! k = Some e → employees s' !! k = Some e) ∧
  (∀ k p, profiles s !! k = Some p → profiles s' !! k = Some p) ∧
  departments s' = departments s ∧
  designations s' = designations s.
Proof.
  intros Hm Hrole Hvalid Hcreated s' uid. subst s' uid.
  destruct (created_means_all_steps _ _ _ Hm (not_admin_or_hr_false _ Hrole)
              Hvalid Hcreated) as (-> & Hemp & Hprof).
  assert (∀ {A} (m : gmap Z A) k (a x : A),
            m !! k = Some x → <[next_pk m := a]> m !! k = Some x) as Hkept.
  { intros A m k a x Hk. rewrite lookup_insert_ne; [done|].
    intros <-. by rewrite next_pk_fresh in Hk. }
  split; [apply next_pk_fresh|]. split; [apply lookup_insert_eq|].
  split.
  { eexists. split.
    - apply (select_insert_fresh_nil _ (employees s)); [apply next_pk_fresh| |exact Hemp].
      by apply bool_decide_eq_true.
    - split; [apply next_pk_fresh|]. done. }
  split.
  { apply (select_insert_fresh_nil _ (profiles s)); [apply next_pk_fresh| |exact Hprof].
    by apply bool_decide_eq_true. }
  split; [apply next_pk_fresh|].
  split; [intros k u; apply Hkept|].
  split; [intros k e; apply Hkept|].
  split; [intros k p; apply Hkept|]. done.
Qed.

(** X20. Onboarding composes with the two listings: after a 201, the
    employee list served to an ADMIN or HR actor contains the new employee,
    and the pending-profiles list contains the new profile. *)
Theorem onboarded_employee_is_listed_and_pending request reader s vd :
  method request = POST →
  role (user request).2 = "ADMIN" ∨ role (user request).2 = "HR" →
  EmployeeCreateSerializer s (data request) = inr vd →
  status (serve create_employee_api request s).1.1 = HTTP_201_CREATED →
  method reader = GET →
  role (user reader).2 = "ADMIN" ∨ role (user reader).2 = "HR" →
  let s' := (serve create_employee_api request s).1.2 in
  (∃ l e,
     (serve employee_list_api reader s').1.1
       = mkResponse (EmployeeListBody l) HTTP_200_OK ∧
     (next_pk (employees s), e) ∈ l ∧ user_id e = next_pk (users s)) ∧
  (∃ l,
     (serve pending_profiles_api reader s').1.1
       = mkResponse (ProfileListBody l) HTTP_200_OK ∧
     (next_pk (profiles s), new_profile (next_pk (users s))) ∈ l).
Proof.
  intros Hm Hrole Hvalid Hcreated Hget Hreader s'. subst s'.
  destruct (created_means_all_steps _ _ _ Hm (not_admin_or_hr_false _ Hrole)
              Hvalid Hcreated) as (-> & _ & _).
  split.
  - unfold serve, employee_list_api, api_view.
    rewrite Hget, (not_admin_or_hr_false _ Hreader). simpl. run.
    exists (map_to_list (employees (with_profile s vd))),
      (onboarded_employee (with_user s vd) (next_pk (users s)) vd).
    split; [reflexivity|]. split; [|reflexivity].
    apply elem_of_map_to_list. apply lookup_insert_eq.
  - unfold serve, pending_profiles_api, api_view.
    rewrite Hget, (not_admin_or_hr_false _ Hreader). simpl. run.
    eexists. split; [reflexivity|].
    apply elem_of_select. split; [apply lookup_insert_eq|].
    unfold owner_role_is. simpl. rewrite lookup_insert_eq. reflexivity.
Qed.

End MoreOnboarding.

(** ** More on the verification workflow *)

Section MoreVerification.
Context {P : Project}.
Implicit Types (request : Request) (s : Store) (v : View).

(** X21. Approving a profile id that names no profile is answered with 404
    and changes nothing. *)
Theorem approve_unknown_profile_is_404 profile_id request s :
  method request = POST →
  role (user request).2 = "ADMIN" ∨ role (user request).2 = "HR" →
  profiles s !! profile_id = None →
  serve (approve_profile_api profile_id) request s = (not_found, s, [Read TProfile]).
Proof.
  intros Hm Hrole Hnone.
  unfold serve, approve_profile_api, api_view.
  rewrite Hm, (not_admin_or_hr_false _ Hrole). simpl. run.
  unfold by_pk. rewrite Hnone. reflexivity.
Qed.

(** X22. Approval touches the verified flag of the named profile and
    nothing else: the profile keeps its owner and its fields, every other
    profile and every other table is unchanged.  The view does not look at
    the owner: a profile of a MANAGER, HR or ADMIN principal, or the
    approver's own, is approved like any other. *)
Theorem approve_changes_only_the_flag profile_id request s p :
  method request = POST →
  role (user request).2 = "ADMIN" ∨ role (user request).2 = "HR" →
  profiles s !! profile_id = Some p →
  let s' := (serve (approve_profile_api profile_id) request s).1.2 in
  (∃ p', profiles s' !! profile_id = Some p' ∧
         employee p' = employee p ∧ details p' = details p ∧ verified p' = true) ∧
  (∀ k, k ≠ profile_id → profiles s' !! k = profiles s !! k) ∧
  users s' = users s ∧ employees s' = employees s ∧
  departments s' = departments s ∧ designations s' = designations s.
Proof.
  intros Hm Hrole Hp s'. subst s'.
  unfold serve, approve_profile_api, api_view.
  rewrite Hm, (not_admin_or_hr_false _ Hrole). simpl. run.
  rewrite (by_pk_Some _ _ _ Hp). simpl.
  split; [eexists; split; [apply lookup_insert_eq|done]|].
  split; [|done]. intros k Hk. by apply lookup_insert_ne.
Qed.

(** X23. Approval composes with the pending query: once approved, the
    profile is no longer in the pending list, and the other profiles are
    in the list after the approval exactly when they were before. *)
Theorem approved_profile_leaves_pending_queue profile_id approver reader s p :
  method approver = POST →
  role (user approver).2 = "ADMIN" ∨ role (user approver).2 = "HR" →
  method reader = GET →
  role (user reader).2 = "ADMIN" ∨ role (user reader).2 = "HR" →
  profiles s !! profile_id = Some p →
  let s' := (serve (approve_profile_api profile_id) approver s).1.2 in
  ∃ before after,
    (serve pending_profiles_api reader s).1.1
      = mkResponse (ProfileListBody before) HTTP_200_OK ∧
    (serve pending_profiles_api reader s').1.1
      = mkResponse (ProfileListBody after) HTTP_200_OK ∧
    (∀ q, (profile_id, q) ∉ after) ∧
    (∀ k q, k ≠ profile_id → (k, q) ∈ after ↔ (k, q) ∈ before).
Proof.
  intros Hm Hrole Hget Hreader Hp s'. subst s'.
  unfold serve, approve_profile_api, pending_profiles_api, api_view.
  rewrite Hm, Hget, (not_admin_or_hr_false _ Hrole), (not_admin_or_hr_false _ Hreader).
  simpl. run. rewrite (by_pk_Some _ _ _ Hp). simpl.
  eexists _, _. split; [reflexivity|]. split; [reflexivity|]. split.
  - intros q Hin. apply elem_of_select in Hin as [Hq Hpend].
    simpl in Hq. rewrite lookup_insert_eq in Hq. injection Hq as <-.
    simpl in Hpend. done.
  - intros k q Hk. rewrite !elem_of_select. simpl.
    rewrite lookup_insert_ne by done. reflexivity.
Qed.

(** X24. A self-edit composes with the pending query: when the actor's
    principal has the role EMPLOYEE and the serializer leaves the owner of
    the profile alone, the edited profile is in the pending list
    afterwards, also when it was verified before. *)
Theorem self_edit_enters_pending_queue request reader s p validated_data u :
  method request = PUT →
  profiles_of (user request).1 s = [p] →
  EmployeeProfileSerializer_is_valid p (data request) = inr validated_data →
  employee (EmployeeProfileSerializer_update validated_data p.2) = employee p.2 →
  users s !! (user request).1 = Some u →
  role u = "EMPLOYEE" →
  method reader = GET →
  role (user reader).2 = "ADMIN" ∨ role (user reader).2 = "HR" →
  let s' := (serve employee_profile_api request s).1.2 in
  ∃ pending p',
    (serve pending_profiles_api reader s').1.1
      = mkResponse (ProfileListBody pending) HTTP_200_OK ∧
    (p.1, p') ∈ pending.
Proof.
  intros Hm Hp Hvalid Howner Hu Hrole Hget Hreader s'. subst s'.
  assert (employee p.2 = (user request).1) as Hmine.
  { apply (profiles_of_owner _ s). rewrite Hp. left. }
  unfold serve, employee_profile_api, pending_profiles_api, api_view.
  rewrite Hm, Hget, (not_admin_or_hr_false _ Hreader). simpl.
  run. rewrite Hp. simpl. rewrite Hvalid. run.
  eexists _, _. split; [reflexivity|].
  apply elem_of_select. split; [apply lookup_insert_eq|].
  unfold owner_role_is. simpl. rewrite Howner, Hmine, Hu, Hrole. reflexivity.
Qed.

(** X25. A self-edit the serializer rejects is answered with 400 and its
    errors; the profile is not written and keeps its verified flag. *)
Theorem invalid_self_edit_changes_nothing request s p errors :
  method request = PUT →
  profiles_of (user request).1 s = [p] →
  EmployeeProfileSerializer_is_valid p (data request) = inl errors →
  serve employee_profile_api request s
    = (mkResponse (ErrorsBody errors) HTTP_400_BAD_REQUEST, s, [Read TProfile]).
Proof.
  intros Hm Hp Hinvalid.
  unfold serve, employee_profile_api, api_view. rewrite Hm. simpl.
  run. rewrite Hp. simpl. rewrite Hinvalid. reflexivity.
Qed.

(** X26. Across all ten views and all requests: a profile that is verified
    after a request was verified before it, under the same primary key, or
    the request was an approval of that very profile by an ADMIN or HR
    actor.  No self-edit, no lazy creation and no onboarding ever yields a
    verified profile. *)
Theorem verified_only_by_approval v request s k p' :
  profiles (serve (dispatch v) request s).1.2 !! k = Some p' →
  verified p' = true →
  (∃ p, profiles s !! k = Some p ∧ verified p = true) ∨
  (v = ApproveProfile k ∧ method request = POST ∧
   not_admin_or_hr request = false ∧ is_Some (profiles s !! k)).
Proof.
  destruct v; run_views; intros Hk Hv; case_paths.
  all: cbn [db log] in *; unfold set_profiles in *; cbn [profiles] in *.
  all: repeat match goal with
       | H : <[_ := _]> _ !! _ = Some _ |- _ =>
           apply lookup_insert_Some in H as [[<- <-]|[? H]]
       end; try done.
  all: try (left; eexists; split; [eassumption|done]).
  right. unfold by_pk in *.
  destruct (profiles s !! profile_id) as [r|] eqn:Hr; [|done].
  simplify_eq. simpl. split; [done|]. split; [|by eauto].
  match goal with H : bool_decide _ = true |- _ =>
    apply bool_decide_eq_true in H; by apply list_elem_of_singleton in H end.
Qed.

End MoreVerification.

(** ** More on one's own profile *)

Section MoreOwnProfile.
Context {P : Project}.
Implicit Types (request : Request) (s : Store).

(** How a GET on [employee_profile_api] ends, by cases on the actor's
    profiles and employee records. *)
Lemma employee_profile_get_run request s :
  method request = GET →
  (serve employee_profile_api request s).1 =
    let uid := (user request).1 in
    let answer p :=
      match employees_of uid s with
      | [] => mkResponse (ProfileBody p None) HTTP_200_OK
      | [e] => mkResponse (ProfileBody p (Some e)) HTTP_200_OK
      | _ => server_error
      end in
    match profiles_of uid s with
    | [] => (answer (next_pk (profiles s), new_profile uid),
             set_profiles (insert (next_pk (profiles s)) (new_profile uid)) s)
    | [p] => (answer p, s)
    | _ => (server_error, s)
    end.
Proof.
  intros Hm.
  unfold serve, employee_profile_api, api_view. rewrite Hm. simpl. run.
  destruct (profiles_of (user request).1 s) as [|p [|q l]]; simpl;
    [| |reflexivity].
  - change (employees_of (user request).1 (set_profiles _ s))
      with (employees_of (user request).1 s).
    destruct (employees_of (user request).1 s) as [|e [|e' l]]; reflexivity.
  - destruct (employees_of (user request).1 s) as [|e [|e' l]]; reflexivity.
Qed.

(** X27. For an actor who has an employee record, a GET on
    [employee_profile_api] returns that employee record together with the
    actor's profile, for every role and without any role test: the stored
    profile when there is one, the store being unchanged, and otherwise a
    new unverified profile that the view adds to the store. *)
Theorem own_profile_includes_employee_record request s me :
  method request = GET →
  employees_of (user request).1 s = [me] →
  user_id me.2 = (user request).1 ∧
  (∀ p, profiles_of (user request).1 s = [p] →
     employee p.2 = (user request).1 ∧
     (serve employee_profile_api request s).1
       = (mkResponse (ProfileBody p (Some me)) HTTP_200_OK, s)) ∧
  (profiles_of (user request).1 s = [] →
     (serve employee_profile_api request s).1
       = (mkResponse
            (ProfileBody (next_pk (profiles s), new_profile (user request).1) (Some me))
            HTTP_200_OK,
          set_profiles
            (insert (next_pk (profiles s)) (new_profile (user request).1)) s)).
Proof.
  intros Hm Hme.
  assert (user_id me.2 = (user request).1) as Hown.
  { assert (me ∈ employees_of (user request).1 s) as Hin by (rewrite Hme; left).
    destruct me as [k e]. unfold employees_of in Hin.
    apply elem_of_select in Hin as [_ He]. by apply bool_decide_eq_true in He. }
  split; [done|].
  rewrite (employee_profile_get_run request s Hm). simpl. rewrite Hme. split.
  - intros p Hp. rewrite Hp. split; [|reflexivity].
    apply (profiles_of_owner _ s). rewrite Hp. left.
  - intros Hp. rewrite Hp. reflexivity.
Qed.

(** X28. Lazy creation happens once: a second GET on
    [employee_profile_api] by the same actor returns the same response as
    the first and leaves the store as the first GET left it. *)
Theorem own_profile_get_is_stable request s :
  method request = GET →
  (length (profiles_of (user request).1 s) ≤ 1)%nat →
  let first := serve employee_profile_api request s in
  (serve employee_profile_api request first.1.2).1 = first.1.
Proof.
  intros Hm Hlen first. subst first.
  rewrite (employee_profile_get_run request s Hm). simpl.
  destruct (profiles_of (user request).1 s) as [|p [|q l]] eqn:Hp;
    simpl in *; [| |lia].
  - rewrite (employee_profile_get_run request _ Hm). simpl.
    change (employees_of (user request).1 (set_profiles _ s))
      with (employees_of (user request).1 s).
    replace (profiles_of (user request).1 (set_profiles _ s))
      with [(next_pk (profiles s), new_profile (user request).1)]; [reflexivity|].
    symmetry.
    apply (select_insert_fresh_nil _ (profiles s)); [apply next_pk_fresh| |exact Hp].
    by apply bool_decide_eq_true.
  - rewrite (employee_profile_get_run request s Hm). simpl. by rewrite Hp.
Qed.

End MoreOwnProfile.

(** * The further properties at work on the concrete store *)

Module MoreRuns.
Import Demo Demo2.

(** [mia], a MANAGER, tries to approve profile 1. *)
Lemma role_gate_denies_first_witness :
  serve (dispatch (P := project) (ApproveProfile 1)) (send manager POST []) store
  = (PermissionDenied, store, []).
Proof.
  apply (role_gate_denies_first (P := project)).
  - reflexivity.
  - simpl. left.
  - discriminate.
  - discriminate.
Defined.

Lemma employee_list_is_complete_witness :
  ∃ l,
    serve employee_list_api (get hr None) store
      = (mkResponse (EmployeeListBody l) HTTP_200_OK, store, [Read TEmployee]) ∧
    NoDup l ∧
    ∀ k e, (k, e) ∈ l ↔ employees store !! k = Some e.
Proof.
  apply (employee_list_is_complete (get hr None) store).
  - reflexivity.
  - right. reflexivity.
Defined.

(** [eli], an EMPLOYEE, lists departments and designations. *)
Lemma departments_and_designations_are_open_witness :
  (∃ l,
     serve departments_api (get worker None) store
       = (mkResponse (DepartmentListBody l) HTTP_200_OK, store, [Read TDepartment]) ∧
     ∀ k d, (k, d) ∈ l ↔ departments store !! k = Some d) ∧
  (∃ l,
     serve designations_api (get worker None) store
       = (mkResponse (DesignationListBody l) HTTP_200_OK, store, [Read TDesignation]) ∧
     ∀ k d, (k, d) ∈ l ↔ designations store !! k = Some d).
Proof.
  apply (departments_and_designations_are_open (get worker None) store).
  reflexivity.
Defined.

Lemma employee_detail_unknown_pk_witness :
  serve (employee_detail_api (P := project) 99) raise_salary store
  = (not_found, store, [Read TEmployee]).
Proof.
  apply (employee_detail_unknown_pk (P := project) 99 raise_salary store).
  - simpl. right. left.
  - right. reflexivity.
  - reflexivity.
Defined.

Lemma employee_update_then_get_witness :
  let s' := (serve (employee_detail_api (P := project) 2) raise_salary store).1.2 in
  ∃ e',
    serve (employee_detail_api (P := project) 2) (get admin None) s'
      = (mkResponse (EmployeeBody (2, e')) HTTP_200_OK, s', [Read TEmployee]) ∧
    employees s' !! 2 = Some e' ∧
    department_id e' = VInt 1 ∧
    designation_id e' = VInt 2 ∧
    date_of_joining e' = VStr "2021-02-01".
Proof.
  destruct (employee_update_then_get (P := project) 2 raise_salary (get admin None)
              store E2.2)
    as (e' & Hget & Hstored & _ & _ & Hdep & Hdes & _ & Hdoj).
  - reflexivity.
  - reflexivity.
  - right. reflexivity.
  - left. reflexivity.
  - reflexivity.
  - exists e'. split; [exact Hget|]. split; [exact Hstored|].
    split; [apply Hdep; reflexivity|].
    split; [apply Hdes; reflexivity|].
    apply Hdoj. reflexivity.
Defined.

(** HR deletes employee 3, whose principal is [omar], principal 5. *)
Lemma employee_delete_removes_principal_witness :
  let result := serve (employee_detail_api (P := project) 3) (send hr DELETE []) store in
  result.1.1 = mkResponse EmptyBody HTTP_204_NO_CONTENT ∧
  users result.1.2 !! 5 = None ∧
  ∀ k, k ≠ 5 → users result.1.2 !! k = users store !! k.
Proof.
  destruct (employee_delete_removes_principal (P := project) 3 (send hr DELETE [])
              store E3.2) as [Hgone _].
  - reflexivity.
  - right. reflexivity.
  - reflexivity.
  - apply Hgone. vm_compute. eauto.
Defined.

Lemma falsy_manager_id_clears_manager_witness :
  serve (update_department_manager_api (P := project)) clear_manager store
  = (mkResponse (DepartmentBody (1, mkDepartment "Sales" None)) HTTP_200_OK,
     set_departments (insert 1 (mkDepartment "Sales" None)) store,
     [Read TDepartment; Write TDepartment]).
Proof.
  apply (falsy_manager_id_clears_manager (P := project) clear_manager store 1
           (mkDepartment "Sales" (Some 1))).
  - reflexivity.
  - left. reflexivity.
  - reflexivity.
  - reflexivity.
  - reflexivity.
Defined.

(** Employee 1 works in department 1 and becomes manager of department 2. *)
Lemma manager_id_assigns_any_employee_witness :
  department_id E1.2 = VInt 1 ∧
  serve (update_department_manager_api (P := project)) (assign_manager (VInt 1)) store
  = (mkResponse (DepartmentBody (2, mkDepartment "Ops" (Some 1))) HTTP_200_OK,
     set_departments (insert 2 (mkDepartment "Ops" (Some 1))) store,
     [Read TDepartment; Read TEmployee; Write TDepartment]).
Proof.
  split; [reflexivity|].
  apply (manager_id_assigns_any_employee (P := project) (assign_manager (VInt 1))
           store 2 (mkDepartment "Ops" None) 1 E1.2).
  - reflexivity.
  - right. reflexivity.
  - reflexivity.
  - reflexivity.
  - reflexivity.
  - reflexivity.
  - reflexivity.
Defined.

Lemma unknown_department_or_manager_is_404_witness :
  (serve (update_department_manager_api (P := project)) (assign_manager (VInt 77)) store).1
  = (not_found, store).
Proof.
  destruct (unknown_department_or_manager_is_404 (P := project)
              (assign_manager (VInt 77)) store 2) as [_ Hmanager].
  - reflexivity.
  - right. reflexivity.
  - reflexivity.
  - apply (Hmanager 77).
    + vm_compute. eauto.
    + reflexivity.
    + reflexivity.
    + reflexivity.
Defined.

(** The administrator, who has no employee record, views [omar]. *)
Lemma admin_views_any_profile_witness :
  ∃ profile,
    (serve view_profile_api (get admin (Some "E3")) store).1.1
      = mkResponse (ViewBody E3 profile) HTTP_200_OK ∧
    employee profile.2 = 5.
Proof.
  destruct (admin_views_any_profile (get admin (Some "E3")) store E3 "E3")
    as (profile & Hresponse & Howner & _).
  - reflexivity.
  - left. reflexivity.
  - reflexivity.
  - discriminate.
  - reflexivity.
  - vm_compute. eauto.
  - vm_compute. lia.
  - exists profile. split; [exact Hresponse|exact Howner].
Defined.

(** [eli] is refused [mia], of the same department, and shown [eli]. *)
Lemma employee_views_only_own_profile_witness :
  serve view_profile_api (get worker (Some "E1")) store
    = (PermissionDenied, store, [Read TEmployee; Read TEmployee]) ∧
  ∃ profile,
    (serve view_profile_api (get worker (Some "E2")) store).1.1
      = mkResponse (ViewBody E2 profile) HTTP_200_OK ∧
    employee profile.2 = 4.
Proof.
  split.
  - destruct (employee_views_only_own_profile (get worker (Some "E1")) store E2 E1 "E1")
      as [Hother _].
    + reflexivity.
    + reflexivity.
    + reflexivity.
    + reflexivity.
    + discriminate.
    + reflexivity.
    + apply Hother. discriminate.
  - destruct (employee_views_only_own_profile (get worker (Some "E2")) store E2 E2 "E2")
      as [_ Hself].
    + reflexivity.
    + reflexivity.
    + reflexivity.
    + reflexivity.
    + discriminate.
    + reflexivity.
    + apply Hself.
      * reflexivity.
      * vm_compute. eauto.
      * vm_compute. lia.
Defined.

(** [mia], a MANAGER, asks for an employee id that does not exist. *)
Lemma unknown_target_is_404_witness :
  (serve view_profile_api (get manager (Some "E9")) store).1 = (not_found, store).
Proof.
  apply (unknown_target_is_404 (get manager (Some "E9")) store "E9").
  - reflexivity.
  - reflexivity.
  - discriminate.
  - reflexivity.
  - intros _. exists E1. reflexivity.
Defined.

(** [mia] names no target and is shown employee 1 and the stored profile 1. *)
Lemma own_view_returns_own_record_witness :
  (serve view_profile_api (get manager None) store).1
  = (mkResponse (ViewBody E1 (1, mkEmployeeProfile 3 false ∅)) HTTP_200_OK, store).
Proof.
  destruct (own_view_returns_own_record (get manager None) store E1)
    as (_ & Hstored & _).
  - reflexivity.
  - left. reflexivity.
  - reflexivity.
  - reflexivity.
  - vm_compute. eauto.
  - apply (Hstored (1, mkEmployeeProfile 3 false ∅)). reflexivity.
Defined.

Lemma unknown_role_sees_no_profile_witness :
  ((serve view_profile_api (get intern (Some "E2")) store).1.1 = PermissionDenied ∨
   (serve view_profile_api (get intern (Some "E2")) store).1.1 = not_found ∨
   (serve view_profile_api (get intern (Some "E2")) store).1.1 = server_error) ∧
  (serve view_profile_api (get intern (Some "E2")) store).1.2 = store.
Proof.
  apply (unknown_role_sees_no_profile (get intern (Some "E2")) store).
  - reflexivity.
  - apply (bool_decide_unpack _). vm_compute. exact I.
Defined.

Lemma invalid_onboarding_creates_nothing_witness :
  (serve (create_employee_api (P := project)) (send hr POST []) store).1
  = (mkResponse (ErrorsBody [("detail", "This field is required.")])
       HTTP_400_BAD_REQUEST, store).
Proof.
  apply (invalid_onboarding_creates_nothing (P := project) (send hr POST []) store).
  - reflexivity.
  - right. reflexivity.
  - reflexivity.
Defined.

Lemma onboarding_creates_linked_records_witness :
  let s' := (serve (create_employee_api (P := project)) (onboard 1) store).1.2 in
  users s' !! next_pk (users store) = Some nina ∧
  (∃ e, employees_of (next_pk (users store)) s' = [(next_pk (employees store), e)] ∧
        department_id e = VInt 1) ∧
  profiles_of (next_pk (users store)) s'
    = [(next_pk (profiles store), new_profile (next_pk (users store)))].
Proof.
  destruct (onboarding_creates_linked_records (P := project) (onboard 1) store
              (nina_data 1))
    as (_ & Hu & (e & He & _ & Hdep & _) & Hp & _).
  - reflexivity.
  - right. reflexivity.
  - reflexivity.
  - reflexivity.
  - split; [exact Hu|]. split; [|exact Hp]. exists e. split; [exact He|exact Hdep].
Defined.

Lemma onboarded_employee_is_listed_and_pending_witness :
  let s' := (serve (create_employee_api (P := project)) (onboard 1) store).1.2 in
  (∃ l e,
     (serve employee_list_api (get admin None) s').1.1
       = mkResponse (EmployeeListBody l) HTTP_200_OK ∧
     (next_pk (employees store), e) ∈ l ∧ user_id e = next_pk (users store)) ∧
  (∃ l,
     (serve pending_profiles_api (get admin None) s').1.1
       = mkResponse (ProfileListBody l) HTTP_200_OK ∧
     (next_pk (profiles store), new_profile (next_pk (users store))) ∈ l).
Proof.
  apply (onboarded_employee_is_listed_and_pending (P := project) (onboard 1)
           (get admin None) store (nina_data 1)).
  - reflexivity.
  - right. reflexivity.
  - reflexivity.
  - reflexivity.
  - reflexivity.
  - left. reflexivity.
Defined.

Lemma approve_unknown_profile_is_404_witness :
  serve (approve_profile_api 99) (send hr POST []) store
  = (not_found, store, [Read TProfile]).
Proof.
  apply (approve_unknown_profile_is_404 99 (send hr POST []) store).
  - reflexivity.
  - right. reflexivity.
  - reflexivity.
Defined.

(** Profile 1 belongs to [mia], a MANAGER; HR approves it. *)
Lemma approve_changes_only_the_flag_witness :
  let s' := (serve (approve_profile_api 1) (send hr POST []) store).1.2 in
  (∃ p', profiles s' !! 1 = Some p' ∧
         employee p' = 3 ∧ details p' = ∅ ∧ verified p' = true) ∧
  (∀ k, k ≠ 1 → profiles s' !! k = profiles store !! k) ∧
  users s' = users store ∧ employees s' = employees store ∧
  departments s' = departments store ∧ designations s' = designations store.
Proof.
  apply (approve_changes_only_the_flag 1 (send hr POST []) store
           (mkEmployeeProfile 3 false ∅)).
  - reflexivity.
  - right. reflexivity.
  - reflexivity.
Defined.

(** Profile 3, [omar]'s, is pending; HR approves it. *)
Lemma approved_profile_leaves_pending_queue_witness :
  let s' := (serve (approve_profile_api 3) (send hr POST []) store).1.2 in
  ∃ before after,
    (serve pending_profiles_api (get admin None) store).1.1
      = mkResponse (ProfileListBody before) HTTP_200_OK ∧
    (serve pending_profiles_api (get admin None) s').1.1
      = mkResponse (ProfileListBody after) HTTP_200_OK ∧
    (∀ q, (3, q) ∉ after) ∧
    (∀ k q, k ≠ 3 → (k, q) ∈ after ↔ (k, q) ∈ before).
Proof.
  apply (approved_profile_leaves_pending_queue 3 (send hr POST []) (get admin None)
           store (mkEmployeeProfile 5 false ∅)).
  - reflexivity.
  - right. reflexivity.
  - reflexivity.
  - left. reflexivity.
  - reflexivity.
Defined.

(** [eli]'s profile 2 is verified; [eli] edits it. *)
Lemma self_edit_enters_pending_queue_witness :
  let s' := (serve (employee_profile_api (P := project)) edit_phone store).1.2 in
  ∃ pending p',
    (serve pending_profiles_api (get admin None) s').1.1
      = mkResponse (ProfileListBody pending) HTTP_200_OK ∧
    (2, p') ∈ pending.
Proof.
  apply (self_edit_enters_pending_queue (P := project) edit_phone (get admin None)
           store (2, mkEmployeeProfile 4 true ∅) (data edit_phone) worker.2).
  - reflexivity.
  - reflexivity.
  - reflexivity.
  - reflexivity.
  - reflexivity.
  - reflexivity.
  - reflexivity.
  - left. reflexivity.
Defined.

Lemma invalid_self_edit_changes_nothing_witness :
  serve (employee_profile_api (P := strict_project)) self_edit store
  = (mkResponse (ErrorsBody [("verified", "This field is read-only.")])
       HTTP_400_BAD_REQUEST, store, [Read TProfile]).
Proof.
  apply (invalid_self_edit_changes_nothing (P := strict_project) self_edit store
           (2, mkEmployeeProfile 4 true ∅)).
  - reflexivity.
  - reflexivity.
  - reflexivity.
Defined.

(** Profile 1 is unverified in the store and verified after HR's approval. *)
Lemma verified_only_by_approval_witness :
  (∃ p, profiles store !! 1 = Some p ∧ verified p = true) ∨
  (ApproveProfile 1 = ApproveProfile 1 ∧ method (send hr POST []) = POST ∧
   not_admin_or_hr (send hr POST []) = false ∧ is_Some (profiles store !! 1)).
Proof.
  apply (verified_only_by_approval (P := project) (ApproveProfile 1)
           (send hr POST []) store 1 (mkEmployeeProfile 3 true ∅)).
  - reflexivity.
  - reflexivity.
Defined.

(** [eli] is shown the stored profile 2 together with employee 2. *)
Lemma own_profile_includes_employee_record_witness :
  (serve (employee_profile_api (P := project)) (get worker None) store).1
  = (mkResponse (ProfileBody (2, mkEmployeeProfile 4 true ∅) (Some E2)) HTTP_200_OK,
     store).
Proof.
  destruct (own_profile_includes_employee_record (P := project) (get worker None)
              store E2)
    as (_ & Hstored & _).
  - reflexivity.
  - reflexivity.
  - apply (Hstored (2, mkEmployeeProfile 4 true ∅)). reflexivity.
Defined.

(** The administrator has no profile; the first GET creates it. *)
Lemma own_profile_get_is_stable_witness :
  let first := serve (employee_profile_api (P := project)) (get admin None) store in
  (serve (employee_profile_api (P := project)) (get admin None) first.1.2).1 = first.1.
Proof.
  apply (own_profile_get_is_stable (P := project) (get admin None) store).
  - reflexivity.
  - vm_compute. lia.
Defined.

End MoreRuns.
